(** * terraform-provider-kea-cb: the Kea command client and its
      reconciliation adapter, embedded in Rocq.

    The development follows the layout of the repository:

    - [GoStrings], [Strconv], [Net]: the parts of Go's [strings],
      [strconv] and [net] packages that the client calls;
    - [Json]: JSON documents and [encoding/json]'s decoding into the
      client's typed targets;
    - [Kea]: package [tools/kea] (transport client, envelope decoder,
      entity command modules);
    - [Provider]: package [internal/provider] (the create/read/update/
      delete adapter of the Terraform resources).

    Go values map to Rocq as follows: [int] is [Z] (64-bit, bounds
    written out where the code checks them), [string] is [string]
    (a sequence of bytes), slices are lists, [map[string]T] is
    [gmap string T], a [(T, error)] result is a pair with an
    [option error], and a function that may panic returns an
    [Outcome]. *)

From Stdlib Require Import ZArith Lia Bool List Ascii String.
From Stdlib Require Import Numbers.DecimalString.
From stdpp Require Import base option gmap strings.

#[local] Set Warnings "-register-all".

Import ListNotations.
Local Open Scope string_scope.
Local Open Scope Z_scope.

(* ===================================================================== *)
(** ** Go's [strings] package *)
(* ===================================================================== *)

Module GoStrings.

(** [len(s)] as a Go [int]. *)
Definition len (s : string) : Z := Z.of_nat (String.length s).

(** [s[n:]] for [0 <= n <= len(s)]. *)
Fixpoint drop (n : nat) (s : string) : string :=
  match n, s with
  | O, _ => s
  | S n', String _ s' => drop n' s'
  | S _, EmptyString => EmptyString
  end.

(** [s[:n]] for [0 <= n <= len(s)]. *)
Fixpoint take (n : nat) (s : string) : string :=
  match n, s with
  | O, _ => EmptyString
  | S n', String c s' => String c (take n' s')
  | S _, EmptyString => EmptyString
  end.

(** [strings.HasPrefix(s, prefix)]:
    [len(s) >= len(prefix) && s[:len(prefix)] == prefix]. *)
Definition HasPrefix (s prefix : string) : bool :=
  (String.length prefix <=? String.length s)%nat
  && String.eqb (take (String.length prefix) s) prefix.

(** [strings.HasSuffix(s, suffix)]:
    [len(s) >= len(suffix) && s[len(s)-len(suffix):] == suffix]. *)
Definition HasSuffix (s suffix : string) : bool :=
  (String.length suffix <=? String.length s)%nat
  && String.eqb (drop (String.length s - String.length suffix) s) suffix.

(** [strings.Contains(s, substr)], that is [strings.Index(s, substr) >= 0]:
    some position of [s] starts with [substr]. *)
Fixpoint Contains (s substr : string) : bool :=
  HasPrefix s substr
  || match s with
     | EmptyString => false
     | String _ s' => Contains s' substr
     end.

(** [strings.Split(s, sep)] for a one-byte separator: the pieces of
    [s] between the occurrences of [sep]; the result is never empty. *)
Fixpoint Split (s : string) (sep : ascii) : list string :=
  match s with
  | EmptyString => [EmptyString]
  | String c s' =>
      if Ascii.eqb c sep then EmptyString :: Split s' sep
      else match Split s' sep with
           | piece :: rest => String c piece :: rest
           | [] => [String c EmptyString]
           end
  end.

(** A [strings.Replacer] whose old strings are single bytes, as built
    by [strings.NewReplacer(old1, new1, old2, new2, ...)]: every byte
    is replaced by the new string of the first pair that names it. *)
Definition Replacer := list (ascii * string).

Fixpoint lookup_old (r : Replacer) (c : ascii) : option string :=
  match r with
  | [] => None
  | (old, new) :: r' => if Ascii.eqb c old then Some new else lookup_old r' c
  end.

Fixpoint Replace (r : Replacer) (s : string) : string :=
  match s with
  | EmptyString => EmptyString
  | String c s' =>
      match lookup_old r c with
      | Some new => new ++ Replace r s'
      | None => String c (Replace r s')
      end
  end.

End GoStrings.

(* ===================================================================== *)
(** ** Go's [error] values *)
(* ===================================================================== *)

(** An [error] is kept as the value the code builds: a package-level
    sentinel ([errors.New]), the result of a [fmt.Errorf] (its rendered
    text), or an error value returned by a library ([net/http],
    [encoding/json], [strconv]), known by its text. *)
Inductive error : Type :=
| ErrSentinel (text : string)
| Errorf (text : string)
| LibError (text : string).

(** [err.Error()]. *)
Definition Error (e : error) : string :=
  match e with
  | ErrSentinel t => t
  | Errorf t => t
  | LibError t => t
  end.

(** [fmt.Sprintf("%d", n)]. *)
Definition itoa (n : Z) : string := NilZero.string_of_int (Z.to_int n).

(* ===================================================================== *)
(** ** Go's [strconv] package *)
(* ===================================================================== *)

Module Strconv.

(** [strconv.IntSize] on the 64-bit platforms the provider is built for. *)
Definition intSize : Z := 64.

Inductive NumErr := ErrSyntax | ErrRange.

Definition NumErr_text (e : NumErr) : string :=
  match e with
  | ErrSyntax => "invalid syntax"
  | ErrRange => "value out of range"
  end.

(** [strconv.Quote] on text without control or non-ASCII bytes: the
    text between double quotes, with backslash and double quote
    escaped. *)
Definition dquote : ascii := ascii_of_nat 34.
Definition backslash : ascii := ascii_of_nat 92.

Fixpoint escape (s : string) : string :=
  match s with
  | EmptyString => EmptyString
  | String c s' =>
      if Ascii.eqb c dquote || Ascii.eqb c backslash
      then String backslash (String c (escape s'))
      else String c (escape s')
  end.

Definition Quote (s : string) : string :=
  String dquote (escape s ++ String dquote EmptyString).

(** The [Error] method of [*NumError]. *)
Definition NumError (fn num : string) (e : NumErr) : error :=
  LibError ("strconv." ++ fn ++ ": parsing " ++ Quote num ++ ": " ++ NumErr_text e).

(** The value of a byte as a decimal digit: [ch - '0'] when it is at
    most 9. *)
Definition digit_of (c : ascii) : option Z :=
  let n := Z.of_nat (nat_of_ascii c) in
  if (48 <=? n) && (n <=? 57) then Some (n - 48) else None.

(** The fast path's loop of [Atoi]:
    [for _, ch := range []byte(s) { ch -= '0'; if ch > 9 { return
    syntaxError }; n = n*10 + int(ch) }]. *)
Fixpoint atoi_loop (s : string) (n : Z) : option Z :=
  match s with
  | EmptyString => Some n
  | String c s' =>
      match digit_of c with
      | None => None
      | Some d => atoi_loop s' (n * 10 + d)
      end
  end.

(** [ParseUint(s, 10, 64)]'s loop: [cutoff = maxUint64/10 + 1],
    [maxVal = 1<<64 - 1]; a byte that is not a decimal digit is a
    syntax error, an overflow a range error, whichever comes first. *)
Definition maxUint64 : Z := 2 ^ 64 - 1.
Definition cutoff10 : Z := maxUint64 / 10 + 1.

Fixpoint parseUint_loop (s : string) (n : Z) : Z * option NumErr :=
  match s with
  | EmptyString => (n, None)
  | String c s' =>
      match digit_of c with
      | None => (0, Some ErrSyntax)
      | Some d =>
          if cutoff10 <=? n then (maxUint64, Some ErrRange)
          else
            let n1 := n * 10 + d in
            if maxUint64 <? n1 then (maxUint64, Some ErrRange)
            else parseUint_loop s' n1
      end
  end.

Definition ParseUint10 (s : string) : Z * option NumErr :=
  match s with
  | EmptyString => (0, Some ErrSyntax)
  | _ => parseUint_loop s 0
  end.

Definition is_sign (c : ascii) : bool :=
  Ascii.eqb c "+"%char || Ascii.eqb c "-"%char.

(** [ParseInt(s, 10, 0)]. *)
Definition ParseInt10 (s : string) : Z * option NumErr :=
  match s with
  | EmptyString => (0, Some ErrSyntax)
  | String c0 s' =>
      let neg := Ascii.eqb c0 "-"%char in
      let body := if is_sign c0 then s' else s in
      match ParseUint10 body with
      | (_, Some ErrSyntax) => (0, Some ErrSyntax)
      | (un, _) =>
          let cutoff := 2 ^ (intSize - 1) in
          if negb neg && (cutoff <=? un) then (cutoff - 1, Some ErrRange)
          else if neg && (cutoff <? un) then (- cutoff, Some ErrRange)
          else (if neg then - un else un, None)
      end
  end.

(** [strconv.Atoi(s)]: the fast path for [0 < len(s) < 19], and
    [ParseInt(s, 10, 0)] otherwise. *)
Definition Atoi (s : string) : Z * option error :=
  let sLen := GoStrings.len s in
  if (0 <? sLen) && (sLen <? 19) then
    match s with
    | EmptyString => (0, Some (NumError "Atoi" s ErrSyntax))
    | String c0 s' =>
        let body := if is_sign c0 then s' else s in
        if (GoStrings.len body <? 1) then (0, Some (NumError "Atoi" s ErrSyntax))
        else
          match atoi_loop body 0 with
          | None => (0, Some (NumError "Atoi" s ErrSyntax))
          | Some n => (if Ascii.eqb c0 "-"%char then - n else n, None)
          end
    end
  else
    match ParseInt10 s with
    | (i64, Some e) => (i64, Some (NumError "Atoi" s e))
    | (i64, None) => (i64, None)
    end.

End Strconv.

(* ===================================================================== *)
(** ** Library behaviour that is left open *)
(* ===================================================================== *)

(** Two library functions are not spelled out and are taken as given:
    the IPv6 branch of [net.ParseIP] (the client only manages DHCPv4
    data, and the accepted IPv6 syntax differs between Go releases) and
    [net/url]'s parser, through which [http.NewRequestWithContext]
    rejects a URL ([Some text] is the error it reports). Every theorem
    below holds whatever these two functions answer. *)
Class GoLib : Type := {
  net_parseIPv6 : string -> option (list Z);
  url_Parse_error : string -> option string;
}.

(* ===================================================================== *)
(** ** Go's [net] package *)
(* ===================================================================== *)

Module Net.

Definition byte_of (c : ascii) : Z := Z.of_nat (nat_of_ascii c).

(** [net.IP] and [net.HardwareAddr]: byte slices. *)
Definition IP := list Z.
Definition HardwareAddr := list Z.

(** *** [ParseIP] *)

(** The loop of [parseIPv4]: decimal octets of at most 255 without
    leading zero, separated by single dots, four of them. [prev] is
    the byte before the current one ([None] at index 0). *)
Fixpoint parseIPv4_loop (s : string) (prev : option ascii)
         (fields : list Z) (val pos digLen : Z) : option (list Z) :=
  match s with
  | EmptyString =>
      if pos <? 3 then None else Some (fields ++ [val])%list
  | String c rest =>
      match Strconv.digit_of c with
      | Some d =>
          if (digLen =? 1) && (val =? 0) then None
          else
            let val' := val * 10 + d in
            if 255 <? val' then None
            else parseIPv4_loop rest (Some c) fields val' pos (digLen + 1)
      | None =>
          if Ascii.eqb c "."%char then
            match prev, rest with
            | None, _ => None
            | _, EmptyString => None
            | Some p, _ =>
                if Ascii.eqb p "."%char then None
                else if pos =? 3 then None
                else parseIPv4_loop rest (Some c) (fields ++ [val])%list 0 (pos + 1) 0
            end
          else None
      end
  end.

Definition parseIPv4 (s : string) : option (list Z) :=
  parseIPv4_loop s None [] 0 0 0.

(** [net.IPv4(a, b, c, d)]: the 16-byte form of an IPv4 address. *)
Definition v4InV6Prefix : list Z := [0;0;0;0;0;0;0;0;0;0;255;255].

(** The dispatch of [ParseIP]: the first of ['.'], [':'] and ['%'] in
    [s] selects the IPv4 parser, the IPv6 parser, or a failure; a
    string with none of them is no address. [None] is Go's [nil]. *)
Fixpoint ParseIP_scan `{GoLib} (s rest : string) : option IP :=
  match rest with
  | EmptyString => None
  | String c rest' =>
      if Ascii.eqb c "."%char then
        option_map (fun f => (v4InV6Prefix ++ f)%list) (parseIPv4 s)
      else if Ascii.eqb c ":"%char then net_parseIPv6 s
      else if Ascii.eqb c "%"%char then None
      else ParseIP_scan s rest'
  end.

Definition ParseIP `{GoLib} (s : string) : option IP := ParseIP_scan s s.

(** *** [ParseMAC] *)

Definition big : Z := 0xFFFFFF.

Definition hex_of (c : ascii) : option Z :=
  let n := byte_of c in
  if (48 <=? n) && (n <=? 57) then Some (n - 48)
  else if (97 <=? n) && (n <=? 102) then Some (n - 97 + 10)
  else if (65 <=? n) && (n <=? 70) then Some (n - 65 + 10)
  else None.

(** [xtoi(s)]: the hexadecimal number at the start of [s], the number
    of bytes it takes, and whether there is one. *)
Fixpoint xtoi_loop (s : string) (n i : Z) : Z * Z * bool :=
  match s with
  | EmptyString => if i =? 0 then (0, i, false) else (n, i, true)
  | String c s' =>
      match hex_of c with
      | None => if i =? 0 then (0, i, false) else (n, i, true)
      | Some d =>
          let n' := n * 16 + d in
          if big <=? n' then (0, i, false)
          else xtoi_loop s' n' (i + 1)
      end
  end.

Definition xtoi (s : string) : Z * Z * bool := xtoi_loop s 0 0.

(** [xtoi2(s, e)]: the byte written by the first two bytes of [s] as
    hex digits; when [s] is longer, its third byte must be [e]. The
    callers pass at least two bytes ([s[:2]] is in range). *)
Definition xtoi2 (s : string) (e : ascii) : Z * bool :=
  match String.get 2 s with
  | Some c2 =>
      if negb (Ascii.eqb c2 e) then (0, false)
      else let '(n, ei, ok) := xtoi (GoStrings.take 2 s) in
           (n mod 256, ok && (ei =? 2))
  | None =>
      let '(n, ei, ok) := xtoi (GoStrings.take 2 s) in
      (n mod 256, ok && (ei =? 2))
  end.

(** The loop of the colon and dash forms:
    [for x, i := 0, 0; i < n; i++ { hw[i], ok = xtoi2(s[x:], s[2]); x += 3 }];
    [s] is the rest [s[x:]] of the address. *)
Fixpoint parse_groups3 (n : nat) (s : string) (e : ascii) : option HardwareAddr :=
  match n with
  | O => Some []
  | S n' =>
      match xtoi2 s e with
      | (b, true) => option_map (cons b) (parse_groups3 n' (GoStrings.drop 3 s) e)
      | (_, false) => None
      end
  end.

(** The loop of the dotted form, two bytes per step:
    [hw[i], ok = xtoi2(s[x:x+2], 0); hw[i+1], ok = xtoi2(s[x+2:], s[4]); x += 5]. *)
Fixpoint parse_groups5 (n : nat) (s : string) (e : ascii) : option HardwareAddr :=
  match n with
  | O => Some []
  | S n' =>
      match xtoi2 (GoStrings.take 2 s) zero with
      | (b1, true) =>
          match xtoi2 (GoStrings.drop 2 s) e with
          | (b2, true) =>
              option_map (fun hw => b1 :: b2 :: hw)
                         (parse_groups5 n' (GoStrings.drop 5 s) e)
          | (_, false) => None
          end
      | (_, false) => None
      end
  end.

Definition valid_hw_len (n : Z) : bool := (n =? 6) || (n =? 8) || (n =? 20).

(** [net.ParseMAC(s)]; [None] is the [AddrError] "invalid MAC address". *)
Definition ParseMAC (s : string) : option HardwareAddr :=
  let l := GoStrings.len s in
  if l <? 14 then None
  else
    match String.get 2 s, String.get 4 s with
    | Some s2, Some s4 =>
        if Ascii.eqb s2 ":"%char || Ascii.eqb s2 "-"%char then
          if negb ((l + 1) mod 3 =? 0) then None
          else
            let n := (l + 1) / 3 in
            if negb (valid_hw_len n) then None
            else parse_groups3 (Z.to_nat n) s s2
        else if Ascii.eqb s4 "."%char then
          if negb ((l + 1) mod 5 =? 0) then None
          else
            let n := 2 * (l + 1) / 5 in
            if negb (valid_hw_len n) then None
            else parse_groups5 (Z.to_nat (n / 2)) s s4
        else None
    | _, _ => None
    end.

(** [hexDigit[i]] for [hexDigit = "0123456789abcdef"]. *)
Definition hexDigit (i : Z) : ascii :=
  match String.get (Z.to_nat i) "0123456789abcdef" with
  | Some c => c
  | None => zero
  end.

(** The loop of [HardwareAddr.String]:
    [for i, b := range a { if i > 0 { buf = append(buf, ':') };
    buf = append(buf, hexDigit[b>>4], hexDigit[b&0xF]) }]. *)
Fixpoint hw_bytes (first : bool) (a : HardwareAddr) : string :=
  match a with
  | [] => EmptyString
  | b :: a' =>
      let pair :=
        String (hexDigit (Z.shiftr b 4))
               (String (hexDigit (Z.land b 0xF)) (hw_bytes false a')) in
      if first then pair else String ":"%char pair
  end.

Definition HardwareAddr_String (a : HardwareAddr) : string := hw_bytes true a.

End Net.

(* ===================================================================== *)
(** ** JSON documents and [encoding/json] decoding *)
(* ===================================================================== *)

Module Json.

(** A JSON value as it stands in a document: members of an object in
    document order (a key may repeat), integer literals apart from
    the other number literals. *)
Inductive json : Type :=
| JNull
| JBool (b : bool)
| JInt (z : Z)
| JFloat (literal : string)
| JString (s : string)
| JArray (items : list json)
| JObject (members : list (string * json)).

(** What a [json.Decoder] finds at the start of a byte stream: the
    first JSON value, or a syntax error ([io.EOF] for an empty
    stream), known by its text. *)
Inductive Stream : Type :=
| Document (j : json)
| SyntaxError (text : string).

(** The outcome of decoding into a Go value: the value as decoding
    left it and the first type mismatch, if there was one. A mismatch
    does not stop the decoder: it is recorded, the JSON value at fault
    is skipped, and decoding goes on. *)
Definition decoded (T : Type) : Type := T * option string.

(** Decoding a JSON value INTO a Go value of type [T]: the value so
    far goes in, the updated value comes out. *)
Definition Unmarshal (T : Type) : Type := json -> T -> decoded T.

Definition kind (j : json) : string :=
  match j with
  | JNull => "null"
  | JBool _ => "bool"
  | JInt _ | JFloat _ => "number"
  | JString _ => "string"
  | JArray _ => "array"
  | JObject _ => "object"
  end.

(** The text of an [UnmarshalTypeError]; it names the JSON kind and
    the Go type (the field path Go adds inside a struct is left out). *)
Definition type_error {T} (j : json) (gotype : string) (v : T) : decoded T :=
  (v, Some ("json: cannot unmarshal " ++ kind j ++ " into Go value of type " ++ gotype)).

(** The first of two recorded mismatches. *)
Definition first_error (e1 e2 : option string) : option string :=
  match e1 with
  | Some _ => e1
  | None => e2
  end.

Definition in_int64 (z : Z) : bool := (- 2 ^ 63 <=? z) && (z <? 2 ^ 63).

(** [null] leaves a non-pointer value as it is. *)
Definition unm_int : Unmarshal Z := fun j v =>
  match j with
  | JNull => (v, None)
  | JInt z => if in_int64 z then (z, None) else type_error j "int" v
  | _ => type_error j "int" v
  end.

Definition unm_string : Unmarshal string := fun j v =>
  match j with
  | JNull => (v, None)
  | JString s => (s, None)
  | _ => type_error j "string" v
  end.

Definition unm_bool : Unmarshal bool := fun j v =>
  match j with
  | JNull => (v, None)
  | JBool b => (b, None)
  | _ => type_error j "bool" v
  end.

(** A target of type [interface{}] takes any value (its generic
    form is kept as the JSON value itself; [JNull] is [nil]). *)
Definition unm_any : Unmarshal json := fun j _ => (j, None).

(** A pointer: [null] makes it [nil]; any other value is decoded into
    the pointee, allocated at its zero value when the pointer is nil. *)
Definition unm_ptr {T} (zero : T) (u : Unmarshal T) : Unmarshal (option T) :=
  fun j v =>
    match j with
    | JNull => (None, None)
    | _ => let '(x, e) := u j (default zero v) in (Some x, e)
    end.

Fixpoint unm_items {T} (zero : T) (u : Unmarshal T) (items : list json)
  : decoded (list T) :=
  match items with
  | [] => ([], None)
  | j :: items' =>
      let '(x, e) := u j zero in
      let '(xs, e') := unm_items zero u items' in
      (x :: xs, first_error e e')
  end.

(** A slice: [null] makes it [nil], an array sets it to its elements,
    each decoded from the element type's zero value. *)
Definition unm_slice {T} (gotype : string) (zero : T) (u : Unmarshal T)
  : Unmarshal (list T) :=
  fun j v =>
    match j with
    | JNull => ([], None)
    | JArray items => unm_items zero u items
    | _ => type_error j gotype v
    end.

(** A [map[string]interface{}]: [null] makes it [nil]; the members of
    an object are stored in document order into the map. *)
Definition unm_map_any : Unmarshal (gmap string json) := fun j v =>
  match j with
  | JNull => (∅, None)
  | JObject members =>
      (fold_left (fun m kv => <[kv.1 := kv.2]> m) members v, None)
  | _ => type_error j "map[string]interface {}" v
  end.

(** Field names match a key exactly or, failing that, without regard
    to (ASCII) letter case. *)
Definition lower (c : ascii) : ascii :=
  let n := nat_of_ascii c in
  if ((65 <=? n) && (n <=? 90))%nat then ascii_of_nat (n + 32) else c.

Fixpoint to_lower (s : string) : string :=
  match s with
  | EmptyString => EmptyString
  | String c s' => String (lower c) (to_lower s')
  end.

Definition eqb_fold (a b : string) : bool := String.eqb (to_lower a) (to_lower b).

(** A struct field: its JSON name and how a value is decoded into it. *)
Record Field (T : Type) : Type := mkField {
  fname : string;
  fdecode : json -> T -> decoded T;
}.
Arguments mkField {T} fname fdecode.
Arguments fname {T} f.
Arguments fdecode {T} f.

Definition field {T F} (name : string) (u : Unmarshal F)
           (get : T -> F) (set : F -> T -> T) : Field T :=
  mkField name (fun j v => let '(x, e) := u j (get v) in (set x v, e)).

Definition find_field {T} (fields : list (Field T)) (key : string)
  : option (Field T) :=
  match List.find (fun f => String.eqb key (fname f)) fields with
  | Some f => Some f
  | None => List.find (fun f => eqb_fold key (fname f)) fields
  end.

Fixpoint unm_members {T} (fields : list (Field T))
         (members : list (string * json)) (v : T) : decoded T :=
  match members with
  | [] => (v, None)
  | (key, j) :: members' =>
      match find_field fields key with
      | None => unm_members fields members' v
      | Some f =>
          let '(v', e) := fdecode f j v in
          let '(v'', e') := unm_members fields members' v' in
          (v'', first_error e e')
      end
  end.

(** A struct: [null] leaves it as it is; the members of an object are
    decoded in document order into the fields they name, and members
    that name no field are skipped. *)
Definition unm_struct {T} (gotype : string) (fields : list (Field T))
  : Unmarshal T :=
  fun j v =>
    match j with
    | JNull => (v, None)
    | JObject members => unm_members fields members v
    | _ => type_error j gotype v
    end.

(** [json.NewDecoder(r).Decode(&v)]: a syntax error is found before
    anything is decoded. *)
Definition Decode {T} (u : Unmarshal T) (r : Stream) (v : T) : T * option error :=
  match r with
  | SyntaxError text => (v, Some (LibError text))
  | Document j => let '(v', e) := u j v in (v', option_map LibError e)
  end.

End Json.
Export Json(json(..), Stream(..)).

(* ===================================================================== *)
(** ** Package [tools/kea]: data types *)
(* ===================================================================== *)

Module Kea.

Import Json.

Definition packageName : string := "kea".
Definition envKEAUSER : string := "KEA_USERNAME".
Definition envKEAPASS : string := "KEA_PASSWORD".

(** [ErrInvalidIP], [ErrInvalidMAC] (error.go). *)
Definition ErrInvalidIP : error := ErrSentinel "invalid IP address".
Definition ErrInvalidMAC : error := ErrSentinel "invalid MAC address".

Record auth : Type := mkAuth {
  username : string;
  password : string;
}.

(** [logrus.Level]. *)
Inductive Level : Type :=
| PanicLevel | FatalLevel | ErrorLevel | WarnLevel | InfoLevel | DebugLevel | TraceLevel.

(** The [http.Client] the client holds: what [processOptions] sets of
    its transport and its timeout (in seconds, 0 for none). *)
Record Transport : Type := mkTransport {
  InsecureSkipVerify : bool;
  Proxy : option string;
}.

Record HttpClient : Type := mkHttpClient {
  transport : Transport;
  Timeout : Z;
}.

Record Client : Type := mkClient {
  client : HttpClient;
  log : Level;
  client_auth : auth;
  remote : string;
}.

(** [Response]: [Arguments] is a [json.RawMessage], the bytes of a JSON
    value ([None] when it holds no byte). *)
Record Response : Type := mkResponse {
  Result : Z;
  Text : string;
  Arguments : option json;
}.

Record Metadata : Type := mkMetadata {
  ServerTags : list string;
}.

Record Relay : Type := mkRelay {
  IPAddresses : list string;
}.

Record Pool : Type := mkPool {
  Pool_Pool : string;
}.

Record OptionData : Type := mkOptionData {
  OD_Code : option Z;
  OD_Data : string;
  OD_Name : string;
  OD_Space : option string;
  OD_AlwaysSend : bool;
}.

Record RemoteSubnet4 : Type := mkRemoteSubnet4 {
  RS_FourO6Interface : string;
  RS_FourO6InterfaceID : string;
  RS_FourO6Subnet : string;
  RS_ID : Z;
  RS_Metadata : Metadata;
  RS_OptionData : list OptionData;
  RS_Pools : list Pool;
  RS_Relay : Relay;
  RS_SharedNetworkName : json;
  RS_Subnet : string;
  RS_UserContext : gmap string json;
}.

Record RemoteSubnet4List : Type := mkRemoteSubnet4List {
  RL_ID : Z;
  RL_Metadata : Metadata;
  RL_SharedNetworkName : string;
  RL_Subnet : string;
}.

Record NewRemoteSubnet4 : Type := mkNewRemoteSubnet4 {
  New_ID : Z;
  New_Subnet : string;
  New_SharedNetworkName : option string;
  New_Pools : list Pool;
  New_OptionData : list OptionData;
  New_Relay : Relay;
  New_UserContext : gmap string string;
}.

Record OptionReq : Type := mkOptionReq {
  OR_Code : Z;
  OR_Data : string;
}.

Record Reservation : Type := mkReservation {
  Resv_BootFileName : string;
  Resv_ClientID : string;
  Resv_CircuitID : string;
  Resv_DuID : string;
  Resv_FlexID : string;
  Resv_IPAddress : string;
  Resv_HwAddress : string;
  Resv_Hostname : string;
  Resv_NextServer : string;
  Resv_OptionData : list OptionData;
  Resv_SubnetID : Z;
  Resv_UserContext : gmap string json;
}.

Record Lease4 : Type := mkLease4 {
  L_ClientID : string;
  L_Cltt : Z;
  L_FqdnFwd : bool;
  L_FqdnRev : bool;
  L_Hostname : string;
  L_HwAddress : string;
  L_IPAddress : string;
  L_State : Z;
  L_SubnetID : Z;
  L_ValidLft : Z;
}.

Record RemoteOptionDef4 : Type := mkRemoteOptionDef4 {
  Def_Name : string;
  Def_Code : Z;
  Def_Type : string;
  Def_Array : bool;
  Def_RecordTypes : string;
  Def_Space : string;
  Def_Encapsulate : string;
}.

(** The values the commands put in [Request.Arguments], a
    [map[string]any]. *)
Inductive any : Type :=
| AnyStringMap (m : gmap string string)
| AnyStrings (l : list string)
| AnyStringMaps (l : list (gmap string string))
| AnyIntMaps (l : list (gmap string Z))
| AnyInt (n : Z)
| AnyString (s : string)
| AnyInts (l : list Z)
| AnyNewSubnets (l : list NewRemoteSubnet4)
| AnyReservation (r : Reservation)
| AnyOptionReqs (l : list OptionReq)
| AnyOptionDefs (l : list RemoteOptionDef4).

Record Request : Type := mkRequest {
  Command : string;
  Request_Arguments : gmap string any;
  Service : list string;
}.

(** Zero values. *)
Definition zero_Metadata : Metadata := mkMetadata [].
Definition zero_Relay : Relay := mkRelay [].
Definition zero_Pool : Pool := mkPool "".
Definition zero_OptionData : OptionData := mkOptionData None "" "" None false.
Definition zero_Response : Response := mkResponse 0 "" None.
Definition zero_RemoteSubnet4 : RemoteSubnet4 :=
  mkRemoteSubnet4 "" "" "" 0 zero_Metadata [] [] zero_Relay JNull "" ∅.
Definition zero_RemoteSubnet4List : RemoteSubnet4List :=
  mkRemoteSubnet4List 0 zero_Metadata "" "".
Definition zero_OptionReq : OptionReq := mkOptionReq 0 "".

(** *** How [encoding/json] decodes into these types (their [json] tags) *)

Definition unm_Response : Unmarshal Response :=
  unm_struct "kea.Response"
    [ field "result" unm_int Result
        (fun x r => mkResponse x (Text r) (Arguments r));
      field "text" unm_string Text
        (fun x r => mkResponse (Result r) x (Arguments r));
      (* a RawMessage takes the bytes of any value, [null] included *)
      mkField "arguments"
        (fun j r => (mkResponse (Result r) (Text r) (Some j), None)) ].

Definition unm_strings : Unmarshal (list string) :=
  unm_slice "[]string" "" unm_string.

Definition unm_Metadata : Unmarshal Metadata :=
  unm_struct "kea.Metadata"
    [ field "server-tags" unm_strings ServerTags (fun x _ => mkMetadata x) ].

Definition unm_Relay : Unmarshal Relay :=
  unm_struct "kea.Relay"
    [ field "ip-addresses" unm_strings IPAddresses (fun x _ => mkRelay x) ].

Definition unm_Pool : Unmarshal Pool :=
  unm_struct "kea.Pool"
    [ field "pool" unm_string Pool_Pool (fun x _ => mkPool x) ].

Definition unm_OptionData : Unmarshal OptionData :=
  unm_struct "kea.OptionData"
    [ field "code" (unm_ptr 0 unm_int) OD_Code
        (fun x o => mkOptionData x (OD_Data o) (OD_Name o) (OD_Space o) (OD_AlwaysSend o));
      field "data" unm_string OD_Data
        (fun x o => mkOptionData (OD_Code o) x (OD_Name o) (OD_Space o) (OD_AlwaysSend o));
      field "name" unm_string OD_Name
        (fun x o => mkOptionData (OD_Code o) (OD_Data o) x (OD_Space o) (OD_AlwaysSend o));
      field "space" (unm_ptr "" unm_string) OD_Space
        (fun x o => mkOptionData (OD_Code o) (OD_Data o) (OD_Name o) x (OD_AlwaysSend o));
      field "always-send" unm_bool OD_AlwaysSend
        (fun x o => mkOptionData (OD_Code o) (OD_Data o) (OD_Name o) (OD_Space o) x) ].

Definition unm_RemoteSubnet4 : Unmarshal RemoteSubnet4 :=
  unm_struct "kea.RemoteSubnet4"
    [ field "4o6-interface" unm_string RS_FourO6Interface
        (fun x '(mkRemoteSubnet4 a b c d e f g h i j k) => mkRemoteSubnet4 x b c d e f g h i j k);
      field "4o6-interface-id" unm_string RS_FourO6InterfaceID
        (fun x '(mkRemoteSubnet4 a b c d e f g h i j k) => mkRemoteSubnet4 a x c d e f g h i j k);
      field "4o6-subnet" unm_string RS_FourO6Subnet
        (fun x '(mkRemoteSubnet4 a b c d e f g h i j k) => mkRemoteSubnet4 a b x d e f g h i j k);
      field "id" unm_int RS_ID
        (fun x '(mkRemoteSubnet4 a b c d e f g h i j k) => mkRemoteSubnet4 a b c x e f g h i j k);
      field "metadata" unm_Metadata RS_Metadata
        (fun x '(mkRemoteSubnet4 a b c d e f g h i j k) => mkRemoteSubnet4 a b c d x f g h i j k);
      field "option-data" (unm_slice "[]kea.OptionData" zero_OptionData unm_OptionData) RS_OptionData
        (fun x '(mkRemoteSubnet4 a b c d e f g h i j k) => mkRemoteSubnet4 a b c d e x g h i j k);
      field "pools" (unm_slice "[]kea.Pool" zero_Pool unm_Pool) RS_Pools
        (fun x '(mkRemoteSubnet4 a b c d e f g h i j k) => mkRemoteSubnet4 a b c d e f x h i j k);
      field "relay" unm_Relay RS_Relay
        (fun x '(mkRemoteSubnet4 a b c d e f g h i j k) => mkRemoteSubnet4 a b c d e f g x i j k);
      field "shared-network-name" unm_any RS_SharedNetworkName
        (fun x '(mkRemoteSubnet4 a b c d e f g h i j k) => mkRemoteSubnet4 a b c d e f g h x j k);
      field "subnet" unm_string RS_Subnet
        (fun x '(mkRemoteSubnet4 a b c d e f g h i j k) => mkRemoteSubnet4 a b c d e f g h i x k);
      field "user-context" unm_map_any RS_UserContext
        (fun x '(mkRemoteSubnet4 a b c d e f g h i j k) => mkRemoteSubnet4 a b c d e f g h i j x) ].

Definition unm_RemoteSubnet4List : Unmarshal RemoteSubnet4List :=
  unm_struct "kea.RemoteSubnet4List"
    [ field "id" unm_int RL_ID
        (fun x r => mkRemoteSubnet4List x (RL_Metadata r) (RL_SharedNetworkName r) (RL_Subnet r));
      field "metadata" unm_Metadata RL_Metadata
        (fun x r => mkRemoteSubnet4List (RL_ID r) x (RL_SharedNetworkName r) (RL_Subnet r));
      field "shared-network-name" unm_string RL_SharedNetworkName
        (fun x r => mkRemoteSubnet4List (RL_ID r) (RL_Metadata r) x (RL_Subnet r));
      field "subnet" unm_string RL_Subnet
        (fun x r => mkRemoteSubnet4List (RL_ID r) (RL_Metadata r) (RL_SharedNetworkName r) x) ].

Definition unm_OptionReq : Unmarshal OptionReq :=
  unm_struct "kea.OptionReq"
    [ field "code" unm_int OR_Code (fun x o => mkOptionReq x (OR_Data o));
      field "data" unm_string OR_Data (fun x o => mkOptionReq (OR_Code o) x) ].

(** The anonymous result structs of the commands:
    [struct { Subnets []T `json:"subnets"` }] and
    [struct { Options []OptionReq `json:"options"` }]. *)
Definition unm_subnets {T} (gotype : string) (zero : T) (u : Unmarshal T)
  : Unmarshal (list T) :=
  unm_struct "struct" [ field "subnets" (unm_slice gotype zero u) id (fun x _ => x) ].

Definition unm_options : Unmarshal (list OptionReq) :=
  unm_struct "struct"
    [ field "options" (unm_slice "[]kea.OptionReq" zero_OptionReq unm_OptionReq)
        id (fun x _ => x) ].

Definition zero_Lease4 : Lease4 := mkLease4 "" 0 false false "" "" "" 0 0 0.
Definition zero_RemoteOptionDef4 : RemoteOptionDef4 :=
  mkRemoteOptionDef4 "" 0 "" false "" "" "".
Definition zero_Reservation : Reservation :=
  mkReservation "" "" "" "" "" "" "" "" "" [] 0 ∅.

Definition unm_Lease4 : Unmarshal Lease4 :=
  unm_struct "kea.Lease4"
    [ field "client-id" unm_string L_ClientID
        (fun x '(mkLease4 a b c d e f g h i j) => mkLease4 x b c d e f g h i j);
      field "cltt" unm_int L_Cltt
        (fun x '(mkLease4 a b c d e f g h i j) => mkLease4 a x c d e f g h i j);
      field "fqdn-fwd" unm_bool L_FqdnFwd
        (fun x '(mkLease4 a b c d e f g h i j) => mkLease4 a b x d e f g h i j);
      field "fqdn-rev" unm_bool L_FqdnRev
        (fun x '(mkLease4 a b c d e f g h i j) => mkLease4 a b c x e f g h i j);
      field "hostname" unm_string L_Hostname
        (fun x '(mkLease4 a b c d e f g h i j) => mkLease4 a b c d x f g h i j);
      field "hw-address" unm_string L_HwAddress
        (fun x '(mkLease4 a b c d e f g h i j) => mkLease4 a b c d e x g h i j);
      field "ip-address" unm_string L_IPAddress
        (fun x '(mkLease4 a b c d e f g h i j) => mkLease4 a b c d e f x h i j);
      field "state" unm_int L_State
        (fun x '(mkLease4 a b c d e f g h i j) => mkLease4 a b c d e f g x i j);
      field "subnet-id" unm_int L_SubnetID
        (fun x '(mkLease4 a b c d e f g h i j) => mkLease4 a b c d e f g h x j);
      field "valid-lft" unm_int L_ValidLft
        (fun x '(mkLease4 a b c d e f g h i j) => mkLease4 a b c d e f g h i x) ].

Definition unm_RemoteOptionDef4 : Unmarshal RemoteOptionDef4 :=
  unm_struct "kea.RemoteOptionDef4"
    [ field "name" unm_string Def_Name
        (fun x '(mkRemoteOptionDef4 a b c d e f g) => mkRemoteOptionDef4 x b c d e f g);
      field "code" unm_int Def_Code
        (fun x '(mkRemoteOptionDef4 a b c d e f g) => mkRemoteOptionDef4 a x c d e f g);
      field "type" unm_string Def_Type
        (fun x '(mkRemoteOptionDef4 a b c d e f g) => mkRemoteOptionDef4 a b x d e f g);
      field "array" unm_bool Def_Array
        (fun x '(mkRemoteOptionDef4 a b c d e f g) => mkRemoteOptionDef4 a b c x e f g);
      field "record-types" unm_string Def_RecordTypes
        (fun x '(mkRemoteOptionDef4 a b c d e f g) => mkRemoteOptionDef4 a b c d x f g);
      field "space" unm_string Def_Space
        (fun x '(mkRemoteOptionDef4 a b c d e f g) => mkRemoteOptionDef4 a b c d e x g);
      field "encapsulate" unm_string Def_Encapsulate
        (fun x '(mkRemoteOptionDef4 a b c d e f g) => mkRemoteOptionDef4 a b c d e f x) ].

Definition unm_Reservation : Unmarshal Reservation :=
  unm_struct "kea.Reservation"
    [ field "boot-file-name" unm_string Resv_BootFileName
        (fun x '(mkReservation a b c d e f g h i j k l) => mkReservation x b c d e f g h i j k l);
      field "client-id" unm_string Resv_ClientID
        (fun x '(mkReservation a b c d e f g h i j k l) => mkReservation a x c d e f g h i j k l);
      field "circuit-id" unm_string Resv_CircuitID
        (fun x '(mkReservation a b c d e f g h i j k l) => mkReservation a b x d e f g h i j k l);
      field "duid" unm_string Resv_DuID
        (fun x '(mkReservation a b c d e f g h i j k l) => mkReservation a b c x e f g h i j k l);
      field "flex-id" unm_string Resv_FlexID
        (fun x '(mkReservation a b c d e f g h i j k l) => mkReservation a b c d x f g h i j k l);
      field "ip-address" unm_string Resv_IPAddress
        (fun x '(mkReservation a b c d e f g h i j k l) => mkReservation a b c d e x g h i j k l);
      field "hw-address" unm_string Resv_HwAddress
        (fun x '(mkReservation a b c d e f g h i j k l) => mkReservation a b c d e f x h i j k l);
      field "hostname" unm_string Resv_Hostname
        (fun x '(mkReservation a b c d e f g h i j k l) => mkReservation a b c d e f g x i j k l);
      field "next-server" unm_string Resv_NextServer
        (fun x '(mkReservation a b c d e f g h i j k l) => mkReservation a b c d e f g h x j k l);
      field "option-data" (unm_slice "[]kea.OptionData" zero_OptionData unm_OptionData)
        Resv_OptionData
        (fun x '(mkReservation a b c d e f g h i j k l) => mkReservation a b c d e f g h i x k l);
      field "subnet-id" unm_int Resv_SubnetID
        (fun x '(mkReservation a b c d e f g h i j k l) => mkReservation a b c d e f g h i j x l);
      field "user-context" unm_map_any Resv_UserContext
        (fun x '(mkReservation a b c d e f g h i j k l) => mkReservation a b c d e f g h i j k x) ].

(** More anonymous result structs: [struct { Leases []Lease4 }],
    [struct { Hosts []Reservation }], and [optDefResp]. *)
Definition unm_leases : Unmarshal (list Lease4) :=
  unm_struct "struct"
    [ field "leases" (unm_slice "[]kea.Lease4" zero_Lease4 unm_Lease4) id (fun x _ => x) ].

Definition unm_hosts : Unmarshal (list Reservation) :=
  unm_struct "struct"
    [ field "hosts" (unm_slice "[]kea.Reservation" zero_Reservation unm_Reservation)
        id (fun x _ => x) ].

Record optDefResp : Type := mkOptDefResp {
  Count : Z;
  OptionDefs : list RemoteOptionDef4;
}.

Definition unm_optDefResp : Unmarshal optDefResp :=
  unm_struct "kea.optDefResp"
    [ field "count" unm_int Count (fun x r => mkOptDefResp x (OptionDefs r));
      field "option-defs"
        (unm_slice "[]kea.RemoteOptionDef4" zero_RemoteOptionDef4 unm_RemoteOptionDef4)
        OptionDefs (fun x r => mkOptDefResp (Count r) x) ].

(* --------------------------------------------------------------------- *)
(** *** Client construction (options.go) *)

Record options : Type := mkOptions {
  o_httpTimeout : option Z;
  o_logLevel : option Level;
  o_proxyURL : option string;
  o_auth : option auth;
  o_remote : option string;
}.

(** [Option]: a function that sets a field of [options]. *)
Definition Option : Type := options -> options.

Definition SetHTTPTimeout (timeout : Z) : Option := fun o =>
  mkOptions (Some timeout) (o_logLevel o) (o_proxyURL o) (o_auth o) (o_remote o).

Definition WithLogLevel (lvl : Level) : Option := fun o =>
  mkOptions (o_httpTimeout o) (Some lvl) (o_proxyURL o) (o_auth o) (o_remote o).

Definition WithProxy (url : string) : Option := fun o =>
  mkOptions (o_httpTimeout o) (o_logLevel o) (Some url) (o_auth o) (o_remote o).

Definition WithAuth (user pass : string) : Option := fun o =>
  mkOptions (o_httpTimeout o) (o_logLevel o) (o_proxyURL o)
            (Some (mkAuth user pass)) (o_remote o).

Definition WithRemote (r : string) : Option := fun o =>
  mkOptions (o_httpTimeout o) (o_logLevel o) (o_proxyURL o) (o_auth o) (Some r).

(** The process environment: [os.Getenv] answers the empty string for
    a variable that is not set. *)
Definition Env : Type := string -> string.

(** Construction either yields a client or ends the process:
    [logrus.Fatal] logs and calls [os.Exit(1)]. *)
Inductive Startup (A : Type) : Type :=
| Started (a : A)
| Fatal (logged : string).
Arguments Started {A} a.
Arguments Fatal {A} logged.

Definition apply_options (opts : list Option) : options :=
  fold_left (fun o opt => opt o) opts (mkOptions None None None None None).

Definition missing_auth : string :=
  "Missing auth! Use versa.WithAuth() or environment vars "
  ++ envKEAUSER ++ "/" ++ envKEAPASS.

Definition processOptions `{GoLib} (getenv : Env) (opts : list Option)
  : Startup Client :=
  let o := apply_options opts in
  let transport := mkTransport true None in
  let timeout := match o_httpTimeout o with Some t => t | None => 0 end in
  let remote := match o_remote o with Some r => r | None => "postgresql" end in
  let proxied :=
    match o_proxyURL o with
    | Some p =>
        match url_Parse_error p with
        | Some text => Fatal text
        | None => Started (mkTransport false (Some p))
        end
    | None => Started transport
    end in
  match proxied with
  | Fatal text => Fatal text
  | Started transport =>
      let a :=
        match o_auth o with
        | Some a => mkAuth (username a) (password a)
        | None => mkAuth (getenv envKEAUSER) (getenv envKEAPASS)
        end in
      if String.eqb (username a) "" || String.eqb (password a) ""
      then Fatal missing_auth
      else
        let level := match o_logLevel o with Some l => l | None => InfoLevel end in
        Started (mkClient (mkHttpClient transport timeout) level a remote)
  end.

(** [New(opts...)]. *)
Definition New `{GoLib} (getenv : Env) (opts : list Option) : Startup Client :=
  processOptions getenv opts.

(* --------------------------------------------------------------------- *)
(** *** Transport (kea.go) *)

(** An [*http.Request] as [make] builds it. [Body] is the payload that
    is JSON-encoded into the request body. *)
Record HttpRequest : Type := mkHttpRequest {
  Method : string;
  URL : string;
  Header : list (string * string);
  BasicAuth : auth;
  RawQuery : list (string * string);
  Body : option Request;
}.

(** The remote end, as [c.client.Do] sees it: for a request, either a
    transport error or the stream of the response body. The status
    line is not read by the client. *)
Definition RoundTripper : Type := HttpRequest -> error + Stream.

(** A call either returns or panics. *)
Inductive Outcome (A : Type) : Type :=
| Returned (a : A)
| Panicked (text : string).
Arguments Returned {A} a.
Arguments Panicked {A} text.

(** Code that talks to the remote end: run against a [RoundTripper],
    it yields an outcome and the requests it sent, in order. *)
Definition IO (A : Type) : Type := RoundTripper -> Outcome A * list HttpRequest.

Definition ret {A} (a : A) : IO A := fun _ => (Returned a, []).

Definition bind {A B} (m : IO A) (k : A -> IO B) : IO B := fun rt =>
  match m rt with
  | (Returned a, sent) =>
      let '(b, sent') := k a rt in (b, (sent ++ sent')%list)
  | (Panicked text, sent) => (Panicked text, sent)
  end.

Definition panic {A} (text : string) : IO A := fun _ => (Panicked text, []).

(** [c.client.Do(req)]. *)
Definition Do (req : HttpRequest) : IO (error + Stream) := fun rt => (Returned (rt req), [req]).

Notation "x <- m ;; k" := (bind m (fun x => k))
  (at level 100, m at next level, right associativity).

Definition MethodPost : string := "POST".

(** The URL of a request: [url] with "https://" put before it unless
    it starts with it, and then "/" put after unless it ends in one. *)
Definition make_url (url : string) : string :=
  let url := if negb (GoStrings.HasPrefix url "https://") then "https://" ++ url else url in
  if negb (GoStrings.HasSuffix url "/") then url ++ "/" else url.

(** [make]: the payloads of this client always encode, so the only
    failure is [http.NewRequestWithContext] rejecting the URL. The
    debug log line has no effect on the result. *)
Definition make `{GoLib} (c : Client) (method url : string) (body : option Request)
           (queryParameters : option (list (string * string)))
  : error + HttpRequest :=
  let url := make_url url in
  match url_Parse_error url with
  | Some text => inl (LibError text)
  | None =>
      inr (mkHttpRequest method url
             [("Content-Type", "application/json"); ("Accept", "application/json")]
             (mkAuth (username (client_auth c)) (password (client_auth c)))
             (match queryParameters with
              | Some q => q
              | None => []
              end)
             body)
  end.

(** [checkResponse]: the body is decoded into a [[]Response]; the
    result is [(&e[0], nil)] or [(nil, err)]. *)
Definition checkResponse (body : Stream) : error + Response :=
  match Decode (unm_slice "[]kea.Response" zero_Response unm_Response) body [] with
  | (_, Some err) =>
      inl (Errorf ("checkResponse.json.Unmarshal(" ++ Error err ++ ")"))
  | (e, None) =>
      match e with
      | [] => inl (Errorf "checkResponse(Unable to find response in [])")
      | e0 :: _ =>
          if Result e0 =? 0 then inr e0
          else inl (Errorf ("result:" ++ itoa (Result e0) ++ "(" ++ Text e0 ++ ")"))
      end
  end.

(** [do]: [u] is how the target [v] decodes ([None] when the caller
    passes a nil [v]); the target comes back as the call left it. The
    deferred close of the body on the error path assigns to [err]
    after the result is set and changes nothing. *)
Definition do {T} (c : Client) (req : HttpRequest)
           (u : option (Unmarshal T)) (v : T)
  : IO (option Response * option error * T) :=
  r <- Do req ;;
  match r with
  | inl err => ret (None, Some err, v)
  | inr body =>
      match checkResponse body with
      | inl err => ret (None, Some err, v)
      | inr res =>
          match u with
          | None => ret (Some res, None, v)
          | Some u =>
              match Arguments res with
              | None => (* no byte to read: io.EOF, let through *)
                  ret (Some res, None, v)
              | Some j =>
                  match Decode u (Document j) v with
                  | (v', None) => ret (Some res, None, v')
                  | (v', Some e) =>
                      ret (Some res,
                           Some (Errorf ("failure decoding payload: " ++ Error e)), v')
                  end
              end
          end
      end
  end.

(* --------------------------------------------------------------------- *)
(** *** Subnet commands (remote_subnet4.go) *)

Definition index_out_of_range : string :=
  "runtime error: index out of range [0] with length 0".

(** [RemoteSubnet4GetByPrefix]. *)
Definition RemoteSubnet4GetByPrefix `{GoLib} (c : Client) (hostname prefix : string)
  : IO (RemoteSubnet4 * option error) :=
  let payload :=
    mkRequest "remote-subnet4-get-by-prefix"
      (<["remote" := AnyStringMap {["type" := remote c]}]>
       (<["subnets" := AnyStringMaps [ {["subnet" := prefix]} ]]> ∅))
      ["dhcp4"] in
  match make c MethodPost hostname (Some payload) None with
  | inl err => ret (zero_RemoteSubnet4, Some err)
  | inr req =>
      r <- do c req (Some (unm_subnets "[]kea.RemoteSubnet4" zero_RemoteSubnet4 unm_RemoteSubnet4)) [] ;;
      match r with
      | (_, Some err, _) => ret (zero_RemoteSubnet4, Some err)
      | (_, None, Subnets) =>
          match Subnets with
          | s0 :: _ => ret (s0, None)
          | [] => panic index_out_of_range
          end
      end
  end.

(** [RemoteSubnet4GetByID]. *)
Definition RemoteSubnet4GetByID `{GoLib} (c : Client) (hostname : string) (id : Z)
  : IO (RemoteSubnet4 * option error) :=
  let payload :=
    mkRequest "remote-subnet4-get-by-id"
      (<["remote" := AnyStringMap {["type" := remote c]}]>
       (<["subnets" := AnyIntMaps [ {["id" := id]} ]]> ∅))
      ["dhcp4"] in
  match make c MethodPost hostname (Some payload) None with
  | inl err => ret (zero_RemoteSubnet4, Some err)
  | inr req =>
      r <- do c req (Some (unm_subnets "[]kea.RemoteSubnet4" zero_RemoteSubnet4 unm_RemoteSubnet4)) [] ;;
      match r with
      | (_, Some err, _) => ret (zero_RemoteSubnet4, Some err)
      | (_, None, Subnets) =>
          match Subnets with
          | s0 :: _ => ret (s0, None)
          | [] => panic index_out_of_range
          end
      end
  end.

(** The result struct [struct { Count int `json:"count"` }]. *)
Definition unm_count : Unmarshal Z :=
  unm_struct "struct" [ field "count" unm_int id (fun x _ => x) ].

(** [RemoteSubnet4DelByPrefix]. *)
Definition RemoteSubnet4DelByPrefix `{GoLib} (c : Client) (hostname prefix : string)
  : IO (Z * option error) :=
  let payload :=
    mkRequest "remote-subnet4-del-by-prefix"
      (<["remote" := AnyStringMap {["type" := remote c]}]>
       (<["subnets" := AnyStringMaps [ {["subnet" := prefix]} ]]> ∅))
      ["dhcp4"] in
  match make c MethodPost hostname (Some payload) None with
  | inl err => ret (0, Some err)
  | inr req =>
      r <- do c req (Some unm_count) 0 ;;
      match r with
      | (_, Some err, _) => ret (0, Some err)
      | (_, None, Count) => ret (Count, None)
      end
  end.

(** [RemoteSubnet4Set]. *)
Definition RemoteSubnet4Set `{GoLib} (c : Client) (hostname : string)
           (subnets : list NewRemoteSubnet4)
  : IO (list RemoteSubnet4List * option error) :=
  let payload :=
    mkRequest "remote-subnet4-set"
      (<["remote" := AnyStringMap {["type" := remote c]}]>
       (<["server-tags" := AnyStrings ["all"]]>
        (<["subnets" := AnyNewSubnets subnets]> ∅)))
      ["dhcp4"] in
  match make c MethodPost hostname (Some payload) None with
  | inl err => ret ([], Some err)
  | inr req =>
      r <- do c req (Some (unm_subnets "[]kea.RemoteSubnet4List" zero_RemoteSubnet4List unm_RemoteSubnet4List)) [] ;;
      match r with
      | (_, Some err, _) => ret ([], Some err)
      | (_, None, Subnets) => ret (Subnets, None)
      end
  end.

(* --------------------------------------------------------------------- *)
(** *** Reservation commands (reservation.go) *)

Definition set_HwAddress (hw : string) (res : Reservation) : Reservation :=
  mkReservation (Resv_BootFileName res) (Resv_ClientID res) (Resv_CircuitID res)
    (Resv_DuID res) (Resv_FlexID res) (Resv_IPAddress res) hw (Resv_Hostname res)
    (Resv_NextServer res) (Resv_OptionData res) (Resv_SubnetID res)
    (Resv_UserContext res).

(** [ReservationAdd]. *)
Definition ReservationAdd `{GoLib} (c : Client) (hostname : string) (res : Reservation)
  : IO (option error) :=
  match Net.ParseIP (Resv_IPAddress res) with
  | None => ret (Some ErrInvalidIP)
  | Some _ =>
      match Net.ParseMAC (Resv_HwAddress res) with
      | None => ret (Some ErrInvalidMAC)
      | Some val =>
          let res := set_HwAddress (Net.HardwareAddr_String val) res in
          let payload :=
            mkRequest "reservation-add"
              (<["reservation" := AnyReservation res]> ∅)
              ["dhcp4"] in
          match make c MethodPost hostname (Some payload) None with
          | inl err => ret (Some err)
          | inr req =>
              r <- do c req (Some unm_options) [] ;;
              match r with
              | (_, Some err, _) => ret (Some err)
              | (_, None, _) => ret None
              end
          end
      end
  end.

(** [ReservationDel]. *)
Definition ReservationDel `{GoLib} (c : Client) (hostname ipAddress : string)
           (subnetID : Z) : IO (option error) :=
  match Net.ParseIP ipAddress with
  | None => ret (Some ErrInvalidIP)
  | Some _ =>
      let payload :=
        mkRequest "reservation-del"
          (<["subnet-id" := AnyInt subnetID]>
           (<["ip-address" := AnyString ipAddress]> ∅))
          ["dhcp4"] in
      match make c MethodPost hostname (Some payload) None with
      | inl err => ret (Some err)
      | inr req =>
          r <- do c req (Some unm_any) JNull ;;
          match r with
          | (_, Some err, _) => ret (Some err)
          | (_, None, _) => ret None
          end
      end
  end.

(** [RemoteSubnet4List] (the method; the struct of that name is the
    record above). *)
Definition Client_RemoteSubnet4List `{GoLib} (c : Client) (hostname : string)
  : IO (list RemoteSubnet4List * option error) :=
  let payload :=
    mkRequest "remote-subnet4-list"
      (<["remote" := AnyStringMap {["type" := remote c]}]>
       (<["server-tags" := AnyStrings ["all"]]> ∅))
      ["dhcp4"] in
  match make c MethodPost hostname (Some payload) None with
  | inl err => ret ([], Some err)
  | inr req =>
      r <- do c req (Some (unm_subnets "[]kea.RemoteSubnet4List" zero_RemoteSubnet4List unm_RemoteSubnet4List)) [] ;;
      match r with
      | (_, Some err, _) => ret ([], Some err)
      | (_, None, Subnets) => ret (Subnets, None)
      end
  end.

(** [RemoteSubnet4DelByID]. *)
Definition RemoteSubnet4DelByID `{GoLib} (c : Client) (hostname : string) (id : Z)
  : IO (Z * option error) :=
  let payload :=
    mkRequest "remote-subnet4-del-by-id"
      (<["remote" := AnyStringMap {["type" := remote c]}]>
       (<["subnets" := AnyIntMaps [ {["id" := id]} ]]> ∅))
      ["dhcp4"] in
  match make c MethodPost hostname (Some payload) None with
  | inl err => ret (0, Some err)
  | inr req =>
      r <- do c req (Some unm_count) 0 ;;
      match r with
      | (_, Some err, _) => ret (0, Some err)
      | (_, None, Count) => ret (Count, None)
      end
  end.

(* --------------------------------------------------------------------- *)
(** *** Subnet option commands (remote_option4.go) *)

(** [RemoteOption4Set]. *)
Definition RemoteOption4Set `{GoLib} (c : Client) (hostname : string) (subnetID : Z)
           (opts : list OptionReq) : IO (list OptionReq * option error) :=
  let payload :=
    mkRequest "remote-option4-subnet-set"
      (<["remote" := AnyStringMap {["type" := remote c]}]>
       (<["subnets" := AnyIntMaps [ {["id" := subnetID]} ]]>
        (<["options" := AnyOptionReqs opts]> ∅)))
      ["dhcp4"] in
  match make c MethodPost hostname (Some payload) None with
  | inl err => ret ([], Some err)
  | inr req =>
      r <- do c req (Some unm_options) [] ;;
      match r with
      | (_, Some err, _) => ret ([], Some err)
      | (_, None, Options) => ret (Options, None)
      end
  end.

(** [RemoteOption4Del]. *)
Definition RemoteOption4Del `{GoLib} (c : Client) (hostname : string) (subnetID : Z)
           (opts : list OptionReq) : IO (list OptionReq * option error) :=
  let payload :=
    mkRequest "remote-option4-subnet-del"
      (<["remote" := AnyStringMap {["type" := remote c]}]>
       (<["subnets" := AnyIntMaps [ {["id" := subnetID]} ]]>
        (<["options" := AnyOptionReqs opts]> ∅)))
      ["dhcp4"] in
  match make c MethodPost hostname (Some payload) None with
  | inl err => ret ([], Some err)
  | inr req =>
      r <- do c req (Some unm_options) [] ;;
      match r with
      | (_, Some err, _) => ret ([], Some err)
      | (_, None, Options) => ret (Options, None)
      end
  end.

(* --------------------------------------------------------------------- *)
(** *** Option definition commands (remote_option_def4.go) *)

Definition option_def_arguments (c : Client) (def : RemoteOptionDef4) : gmap string any :=
  <["remote" := AnyStringMap {["type" := remote c]}]>
  (<["server-tags" := AnyStrings ["all"]]>
   (<["option-defs" := AnyOptionDefs [def]]> ∅)).

(** [RemoteOptionDef4Set]. *)
Definition RemoteOptionDef4Set `{GoLib} (c : Client) (hostname : string)
           (def : RemoteOptionDef4) : IO (option error) :=
  let payload :=
    mkRequest "remote-option-def4-set" (option_def_arguments c def) ["dhcp4"] in
  match make c MethodPost hostname (Some payload) None with
  | inl err => ret (Some err)
  | inr req =>
      r <- do c req (Some unm_any) JNull ;;
      match r with
      | (_, Some err, _) => ret (Some err)
      | (_, None, _) => ret None
      end
  end.

(** [RemoteOptionDef4Get]: [None] is the nil [*RemoteOptionDef4]. *)
Definition RemoteOptionDef4Get `{GoLib} (c : Client) (hostname space : string) (code : Z)
  : IO (option RemoteOptionDef4 * option error) :=
  let payload :=
    mkRequest "remote-option-def4-get"
      (option_def_arguments c (mkRemoteOptionDef4 "" code "" false "" space ""))
      ["dhcp4"] in
  match make c MethodPost hostname (Some payload) None with
  | inl err => ret (None, Some err)
  | inr req =>
      r <- do c req (Some unm_optDefResp) (mkOptDefResp 0 []) ;;
      match r with
      | (_, Some err, _) =>
          if GoStrings.Contains (Error err) "not found" then ret (None, None)
          else ret (None, Some err)
      | (_, None, resp) =>
          match OptionDefs resp with
          | [] => ret (None, None)
          | def :: _ => ret (Some def, None)
          end
      end
  end.

(** [RemoteOptionDef4Del]. *)
Definition RemoteOptionDef4Del `{GoLib} (c : Client) (hostname space : string) (code : Z)
  : IO (option error) :=
  let payload :=
    mkRequest "remote-option-def4-del"
      (option_def_arguments c (mkRemoteOptionDef4 "" code "" false "" space ""))
      ["dhcp4"] in
  match make c MethodPost hostname (Some payload) None with
  | inl err => ret (Some err)
  | inr req =>
      r <- do c req (Some unm_any) JNull ;;
      match r with
      | (_, Some err, _) => ret (Some err)
      | (_, None, _) => ret None
      end
  end.

(* --------------------------------------------------------------------- *)
(** *** Reservation list (reservation.go) *)

(** [ReservationGetAll]. *)
Definition ReservationGetAll `{GoLib} (c : Client) (hostname : string) (subnetID : Z)
  : IO (list Reservation * option error) :=
  let payload :=
    mkRequest "reservation-get-all" (<["subnet-id" := AnyInt subnetID]> ∅) ["dhcp4"] in
  match make c MethodPost hostname (Some payload) None with
  | inl err => ret ([], Some err)
  | inr req =>
      r <- do c req (Some unm_hosts) [] ;;
      match r with
      | (_, Some err, _) => ret ([], Some err)
      | (_, None, Hosts) => ret (Hosts, None)
      end
  end.

(* --------------------------------------------------------------------- *)
(** *** Lease commands (lease4.go) *)

(** [GetLease4All]: [subnetIDs] is [None] for a nil slice, and then the
    request has no arguments. *)
Definition GetLease4All `{GoLib} (c : Client) (hostname : string)
           (subnetIDs : option (list Z)) : IO (list Lease4 * option error) :=
  let payload :=
    mkRequest "lease4-get-all"
      (match subnetIDs with
       | Some ids => <["subnets" := AnyInts ids]> ∅
       | None => ∅
       end)
      ["dhcp4"] in
  match make c MethodPost hostname (Some payload) None with
  | inl err => ret ([], Some err)
  | inr req =>
      r <- do c req (Some unm_leases) [] ;;
      match r with
      | (_, Some err, _) => ret ([], Some err)
      | (_, None, Leases) => ret (Leases, None)
      end
  end.

(** [GetLease4ByIP]: on an error of [do] the lease comes back as [do]
    left it. *)
Definition GetLease4ByIP `{GoLib} (c : Client) (hostname ip : string)
  : IO (Lease4 * option error) :=
  let payload :=
    mkRequest "lease4-get" (<["ip-address" := AnyString ip]> ∅) ["dhcp4"] in
  match make c MethodPost hostname (Some payload) None with
  | inl err => ret (zero_Lease4, Some err)
  | inr req =>
      r <- do c req (Some unm_Lease4) zero_Lease4 ;;
      match r with
      | (_, Some err, lease) => ret (lease, Some err)
      | (_, None, lease) => ret (lease, None)
      end
  end.

(** [GetLease4ByHost]. *)
Definition GetLease4ByHost `{GoLib} (c : Client) (hostname host : string)
  : IO (list Lease4 * option error) :=
  let payload :=
    mkRequest "lease4-get-by-hostname" (<["hostname" := AnyString host]> ∅) ["dhcp4"] in
  match make c MethodPost hostname (Some payload) None with
  | inl err => ret ([], Some err)
  | inr req =>
      r <- do c req (Some unm_leases) [] ;;
      match r with
      | (_, Some err, _) => ret ([], Some err)
      | (_, None, Leases) => ret (Leases, None)
      end
  end.

(** [GetLease4ByMac]. *)
Definition GetLease4ByMac `{GoLib} (c : Client) (hostname mac : string)
  : IO (list Lease4 * option error) :=
  let payload :=
    mkRequest "lease4-get-by-hw-address" (<["hw-address" := AnyString mac]> ∅) ["dhcp4"] in
  match make c MethodPost hostname (Some payload) None with
  | inl err => ret ([], Some err)
  | inr req =>
      r <- do c req (Some unm_leases) [] ;;
      match r with
      | (_, Some err, _) => ret ([], Some err)
      | (_, None, Leases) => ret (Leases, None)
      end
  end.

(** [DelLease4]: a nil target; the text of the envelope is returned. *)
Definition DelLease4 `{GoLib} (c : Client) (hostname ip : string)
  : IO (string * option error) :=
  let payload :=
    mkRequest "lease4-del" (<["ip-address" := AnyString ip]> ∅) ["dhcp4"] in
  match make c MethodPost hostname (Some payload) None with
  | inl err => ret ("", Some err)
  | inr req =>
      r <- do c req (@None (Unmarshal unit)) tt ;;
      match r with
      | (_, Some err, _) => ret ("", Some err)
      | (Some base, None, _) => ret (Text base, None)
      | (None, None, _) => panic "runtime error: invalid memory address or nil pointer dereference"
      end
  end.

End Kea.

(* ===================================================================== *)
(** ** Package [internal/provider] *)
(* ===================================================================== *)

Module Provider.

Import Json Kea.

(** *** The plugin framework's values and diagnostics *)

(** A [types.String], [types.Int64] or [types.Bool]: null, unknown, or
    a known value. *)
Inductive tfval (A : Type) : Type :=
| Null
| Unknown
| Known (a : A).
Arguments Null {A}.
Arguments Unknown {A}.
Arguments Known {A} a.

Definition IsNull {A} (v : tfval A) : bool :=
  match v with Null => true | _ => false end.

Definition IsUnknown {A} (v : tfval A) : bool :=
  match v with Unknown => true | _ => false end.

(** [ValueString], [ValueInt64], [ValueBool]: the known value, and the
    zero value otherwise. *)
Definition ValueString (v : tfval string) : string :=
  match v with Known s => s | _ => "" end.

Definition ValueInt64 (v : tfval Z) : Z :=
  match v with Known n => n | _ => 0 end.

Definition ValueBool (v : tfval bool) : bool :=
  match v with Known b => b | _ => false end.

Inductive Severity : Type := SeverityError | SeverityWarning.

Record Diagnostic : Type := mkDiagnostic {
  severity : Severity;
  Summary : string;
  Detail : string;
}.

Definition Diagnostics : Type := list Diagnostic.

Definition Diagnostic_eqb (a b : Diagnostic) : bool :=
  match severity a, severity b with
  | SeverityError, SeverityError | SeverityWarning, SeverityWarning =>
      String.eqb (Summary a) (Summary b) && String.eqb (Detail a) (Detail b)
  | _, _ => false
  end.

(** [diags.AddError(summary, detail)]: appended unless an equal
    diagnostic is already there. *)
Definition AddError (diags : Diagnostics) (summary detail : string) : Diagnostics :=
  let d := mkDiagnostic SeverityError summary detail in
  if existsb (Diagnostic_eqb d) diags then diags else (diags ++ [d])%list.

Definition HasError (diags : Diagnostics) : bool :=
  existsb (fun d => match severity d with SeverityError => true | _ => false end) diags.

(** What a resource method leaves in its response: the diagnostics,
    and the state it wrote with [resp.State.Set] ([None] when it wrote
    none). The framework's [Get] and [Set] are taken to succeed. *)
Record ResourceResponse (S : Type) : Type := mkResourceResponse {
  Diags : Diagnostics;
  State : option S;
}.
Arguments mkResourceResponse {S} Diags State.
Arguments Diags {S} r.
Arguments State {S} r.

(** [fmt]'s [%v] of a struct value, as used in one error message; its
    text (it prints pointer fields as addresses) is left open. *)
Class GoFmt : Type := {
  fmt_v_NewRemoteSubnet4 : NewRemoteSubnet4 -> string;
}.

(** [fmt.Sprintf("%s", err)] for a nil [err]. *)
Definition fmt_s_nil : string := "%!s(<nil>)".

(* --------------------------------------------------------------------- *)
(** *** remote_subnet4_resource.go *)

Record remoteSubnet4OptionResourceModel : Type := mkOptionModel {
  OM_Code : tfval Z;
  OM_Data : tfval string;
  OM_Name : tfval string;
  OM_AlwaysSend : tfval bool;
}.

Record remoteSubnet4PoolResourceModel : Type := mkPoolModel {
  PM_Pool : tfval string;
}.

Record remoteSubnet4RelayResourceModel : Type := mkRelayModel {
  RM_IPAddress : tfval string;
}.

Record remoteSubnet4ResourceSchema : Type := mkSubnet4Schema {
  Hostname : tfval string;
  ID : tfval Z;
  OptionData : list remoteSubnet4OptionResourceModel;
  Pools : list remoteSubnet4PoolResourceModel;
  Relay : list remoteSubnet4RelayResourceModel;
  Subnet : tfval string;
}.

(** [cidrToIDRepl = strings.NewReplacer(".", "", "/", "", " ", "")]. *)
Definition cidrToIDRepl : GoStrings.Replacer :=
  [ ("."%char, ""); ("/"%char, ""); (" "%char, "") ].

(** The expression [strconv.Atoi(cidrToIDRepl.Replace(strings.Split(subnet,
    "/")[0]))] of [Create] and [Update]. *)
Definition cidrToID (subnet : string) : Z * option error :=
  Strconv.Atoi (GoStrings.Replace cidrToIDRepl
                  (hd "" (GoStrings.Split subnet "/"%char))).

Definition is_empty (v : tfval string) : bool :=
  IsNull v || IsUnknown v || String.eqb (ValueString v) "".

(** The checks every method of the resource starts with. *)
Definition required_fields (config : remoteSubnet4ResourceSchema) : Diagnostics :=
  let diags := [] in
  let diags :=
    if is_empty (Subnet config)
    then AddError diags "RemoteSubnet4Read" "Subnet4 prefix is required" else diags in
  if is_empty (Hostname config)
  then AddError diags "RemoteSubnet4Read" "Hostname is required" else diags.

(** The [kea.NewRemoteSubnet4] that [Create] and [Update] build. *)
Definition newSubnet_of (id : Z) (config : remoteSubnet4ResourceSchema)
  : NewRemoteSubnet4 :=
  mkNewRemoteSubnet4 id (ValueString (Subnet config)) None
    (map (fun p => mkPool (ValueString (PM_Pool p))) (Pools config))
    (map (fun o => mkOptionData (Some (ValueInt64 (OM_Code o)))
                     (ValueString (OM_Data o)) (ValueString (OM_Name o)) None
                     (ValueBool (OM_AlwaysSend o)))
         (OptionData config))
    (mkRelay (map (fun ip => ValueString (RM_IPAddress ip)) (Relay config)))
    ∅.

Definition with_id_subnet (id : Z) (subnet : string)
           (config : remoteSubnet4ResourceSchema) : remoteSubnet4ResourceSchema :=
  mkSubnet4Schema (Hostname config) (Known id) (OptionData config) (Pools config)
                  (Relay config) (Known subnet).

(** [remoteSubnet4Resource.Create]. *)
Definition Create `{GoLib} `{GoFmt} (c : Client) (config : remoteSubnet4ResourceSchema)
  : IO (ResourceResponse remoteSubnet4ResourceSchema) :=
  let diags := required_fields config in
  if HasError diags then ret (mkResourceResponse diags None)
  else
    let subnet := ValueString (Subnet config) in
    match cidrToID subnet with
    | (_, Some err) =>
        ret (mkResourceResponse
               (AddError diags "RemoteSubnet4Create"
                  ("Unable to parse subnet4 prefix `" ++ subnet
                   ++ "`, got error: " ++ Error err))
               None)
    | (id, None) =>
        let newSubnet := newSubnet_of id config in
        r <- RemoteSubnet4Set c (ValueString (Hostname config)) [newSubnet] ;;
        match r with
        | (_, Some err) =>
            ret (mkResourceResponse
                   (AddError diags "RemoteSubnet4Create"
                      ("Unable to create subnet with new id=" ++ itoa id
                       ++ " in Kea, got error: " ++ Error err ++ " | "
                       ++ fmt_v_NewRemoteSubnet4 newSubnet))
                   None)
        | (respData, None) =>
            match respData with
            | [res] =>
                ret (mkResourceResponse diags
                       (Some (with_id_subnet (RL_ID res) (RL_Subnet res) config)))
            | _ =>
                ret (mkResourceResponse
                       (AddError diags "RemoteSubnet4Update"
                          ("Unable to create subnet4 with new id=" ++ itoa id
                           ++ " in Kea,, got error: " ++ fmt_s_nil))
                       None)
            end
        end
    end.

(** [remoteSubnet4Resource.Read]. *)
Definition Read `{GoLib} (c : Client) (config : remoteSubnet4ResourceSchema)
  : IO (ResourceResponse remoteSubnet4ResourceSchema) :=
  let diags := required_fields config in
  if HasError diags then ret (mkResourceResponse diags None)
  else
    r <- RemoteSubnet4GetByPrefix c (ValueString (Hostname config))
                                   (ValueString (Subnet config)) ;;
    let '(respData, err) := r in
    let diags :=
      match err with
      | Some err =>
          (* Only return an error if the error is NOT subnet not found. *)
          if negb (GoStrings.Contains (Error err) "not found")
          then AddError diags "RemoteSubnet4GetByPrefix"
                 ("Unable to read example, got error: " ++ Error err)
          else diags
      | None => diags
      end in
    if HasError diags then ret (mkResourceResponse diags None)
    else
      ret (mkResourceResponse diags
             (Some (mkSubnet4Schema
                      (Hostname config)
                      (Known (RS_ID respData))
                      (map (fun v =>
                              mkOptionModel
                                (Known (match OD_Code v with Some code => code | None => 0 end))
                                (Known (OD_Data v)) (Known (OD_Name v))
                                (Known (OD_AlwaysSend v)))
                           (RS_OptionData respData))
                      (map (fun v => mkPoolModel (Known (Pool_Pool v))) (RS_Pools respData))
                      (map (fun v => mkRelayModel (Known v))
                           (IPAddresses (RS_Relay respData)))
                      (Known (RS_Subnet respData))))).

(** [remoteSubnet4Resource.Update]. *)
Definition Update `{GoLib} (c : Client) (config : remoteSubnet4ResourceSchema)
  : IO (ResourceResponse remoteSubnet4ResourceSchema) :=
  let diags := required_fields config in
  if HasError diags then ret (mkResourceResponse diags None)
  else
    let subnet := ValueString (Subnet config) in
    match cidrToID subnet with
    | (_, Some err) =>
        ret (mkResourceResponse
               (AddError diags "RemoteSubnet4Create"
                  ("Unable to parse subnet4 prefix `" ++ subnet
                   ++ "`, got error: " ++ Error err))
               None)
    | (id, None) =>
        r <- RemoteSubnet4Set c (ValueString (Hostname config)) [newSubnet_of id config] ;;
        match r with
        | (_, Some err) =>
            ret (mkResourceResponse
                   (AddError diags "RemoteSubnet4Update"
                      ("Unable to update subnet4 in Kea, got error: " ++ Error err))
                   None)
        | (respData, None) =>
            match respData with
            | [res] =>
                ret (mkResourceResponse diags
                       (Some (with_id_subnet (RL_ID res) (RL_Subnet res) config)))
            | _ =>
                ret (mkResourceResponse
                       (AddError diags "RemoteSubnet4Update"
                          ("Unable to update subnet4 in Kea,, got error: " ++ fmt_s_nil))
                       None)
            end
        end
    end.

(** [remoteSubnet4Resource.Delete]. *)
Definition Delete `{GoLib} (c : Client) (config : remoteSubnet4ResourceSchema)
  : IO (ResourceResponse remoteSubnet4ResourceSchema) :=
  let diags := required_fields config in
  if HasError diags then ret (mkResourceResponse diags None)
  else
    r <- RemoteSubnet4DelByPrefix c (ValueString (Hostname config))
                                   (ValueString (Subnet config)) ;;
    match r with
    | (_, Some err) =>
        ret (mkResourceResponse
               (AddError diags "RemoteSubnet4DelByPrefix"
                  ("Unable to delete prefix, got error: " ++ Error err))
               None)
    | (_, None) => ret (mkResourceResponse diags None)
    end.

(* --------------------------------------------------------------------- *)
(** *** reservation_resource.go *)

Record reservationOptionResourceModel : Type := mkReservationOptionModel {
  ROM_Code : tfval Z;
  ROM_Data : tfval string;
  ROM_Name : tfval string;
  ROM_AlwaysSend : tfval bool;
}.

Record reservationResourceSchema : Type := mkReservationSchema {
  R_SubnetID : tfval Z;
  R_Hostname : tfval string;
  R_ReservationHostname : tfval string;
  R_BootFileName : tfval string;
  R_ClientID : tfval string;
  R_CircuitID : tfval string;
  R_DuID : tfval string;
  R_FlexID : tfval string;
  R_IPAddress : tfval string;
  R_HwAddress : tfval string;
  R_NextServer : tfval string;
  R_OptionData : list reservationOptionResourceModel;
  R_UserContext : tfval (gmap string (tfval string));
}.

(** [reservationResource.Delete]. *)
Definition reservation_Delete `{GoLib} (c : Client) (config : reservationResourceSchema)
  : IO (ResourceResponse reservationResourceSchema) :=
  let diags := [] in
  let diags :=
    if IsNull (R_SubnetID config) || IsUnknown (R_SubnetID config)
    then AddError diags "ReservationDel" "`subnet_id` is required" else diags in
  let diags :=
    if is_empty (R_Hostname config)
    then AddError diags "ReservationDel" "`hostname` field is required" else diags in
  let diags :=
    if is_empty (R_ReservationHostname config)
    then AddError diags "ReservationDel" "`reservation_hostname` field is required"
    else diags in
  let diags :=
    if is_empty (R_IPAddress config)
    then AddError diags "ReservationDel" "`ip_address` field is required" else diags in
  if HasError diags then ret (mkResourceResponse diags None)
  else
    err <- ReservationDel c (ValueString (R_Hostname config))
                          (ValueString (R_IPAddress config))
                          (ValueInt64 (R_SubnetID config)) ;;
    match err with
    | Some err =>
        ret (mkResourceResponse
               (AddError diags "ReservationDel"
                  ("Unable to delete reservation, got error: " ++ Error err))
               None)
    | None => ret (mkResourceResponse diags None)
    end.

End Provider.

(* ===================================================================== *)
(** ** The specification's wording of the derivations *)
(* ===================================================================== *)

Module Spec.

(** "the portion of P before '/'" *)
Fixpoint before_slash (P : string) : string :=
  match P with
  | EmptyString => EmptyString
  | String c P' => if Ascii.eqb c "/"%char then EmptyString else String c (before_slash P')
  end.

Fixpoint string_filter (keep : ascii -> bool) (s : string) : string :=
  match s with
  | EmptyString => EmptyString
  | String c s' => if keep c then String c (string_filter keep s') else string_filter keep s'
  end.

Fixpoint string_forallb (p : ascii -> bool) (s : string) : bool :=
  match s with
  | EmptyString => true
  | String c s' => p c && string_forallb p s'
  end.

(** "removing all '.' characters (and the '/' suffix and any spaces)" *)
Definition stripped (c : ascii) : bool :=
  Ascii.eqb c "."%char || Ascii.eqb c "/"%char || Ascii.eqb c " "%char.

Definition digit_string (P : string) : string :=
  string_filter (fun c => negb (stripped c)) (before_slash P).

Definition is_digit (c : ascii) : bool :=
  (48 <=? nat_of_ascii c)%nat && (nat_of_ascii c <=? 57)%nat.

(** The number a string of decimal digits writes. *)
Fixpoint decimal_from (s : string) (acc : Z) : Z :=
  match s with
  | EmptyString => acc
  | String c s' => decimal_from s' (10 * acc + (Z.of_nat (nat_of_ascii c) - 48))
  end.

Definition decimal (s : string) : Z := decimal_from s 0.

(** "parsing the remaining digit string as an integer": an optional
    sign and at least one decimal digit, writing a number that a Go
    [int] holds; anything else is not parseable. *)
Definition parse_integer (s : string) : option Z :=
  match s with
  | EmptyString => None
  | String c s' =>
      let neg := Ascii.eqb c "-"%char in
      let body := if Ascii.eqb c "+"%char || neg then s' else s in
      match body with
      | EmptyString => None
      | _ =>
          if string_forallb is_digit body then
            let z := if neg then - decimal body else decimal body in
            if (- 2 ^ 63 <=? z) && (z <? 2 ^ 63) then Some z else None
          else None
      end
  end.

Definition subnet_id (P : string) : option Z := parse_integer (digit_string P).

(** The text of an IPv4 CIDR prefix: four decimal octets and a prefix
    length. *)
Definition cidr (a b c d n : Z) : string :=
  itoa a ++ "." ++ itoa b ++ "." ++ itoa c ++ "." ++ itoa d ++ "/" ++ itoa n.

Definition octet (a : Z) : Prop := 0 <= a <= 255.

(** An octet is written with one to three decimal digits. *)
Definition octet_text_ok (n : nat) : bool :=
  let s := itoa (Z.of_nat n) in
  string_forallb is_digit s && (1 <=? String.length s)%nat && (String.length s <=? 3)%nat.

(** The common part of the specification's and of the code's parsers,
    once the sign is taken off: [neg] tells a minus sign, [body] is
    the rest. *)
Definition spec_core (neg : bool) (body : string) : option Z :=
  match body with
  | EmptyString => None
  | _ =>
      if string_forallb is_digit body then
        let z := if neg then - decimal body else decimal body in
        if (- 2 ^ 63 <=? z) && (z <? 2 ^ 63) then Some z else None
      else None
  end.

Definition agrees (spec : option Z) (code : Z * option Strconv.NumErr) : Prop :=
  match spec with
  | Some z => code = (z, None)
  | None => exists v e, code = (v, Some e)
  end.

End Spec.

(** The specification's "canonical colon-separated lowercase form" of a
    hardware address. *)
Module MacSpec.

Definition lower_hex (c : ascii) : bool :=
  let n := nat_of_ascii c in
  ((48 <=? n) && (n <=? 57) || (97 <=? n) && (n <=? 102))%nat.

(** "canonical colon-separated lowercase form": pairs of lowercase
    hexadecimal digits with a colon between one pair and the next. *)
Fixpoint canonical (s : string) : bool :=
  match s with
  | String a (String b rest) =>
      lower_hex a && lower_hex b
      && match rest with
         | EmptyString => true
         | String sep rest' =>
             Ascii.eqb sep ":"%char
             && match rest' with EmptyString => false | _ => canonical rest' end
         end
  | _ => false
  end.

Definition is_byte (b : Z) : Prop := 0 <= b < 256.

Definition pair_ok (n : nat) : bool :=
  let b := Z.of_nat n in
  let h1 := Net.hexDigit (Z.shiftr b 4) in
  let h2 := Net.hexDigit (Z.land b 0xF) in
  lower_hex h1 && lower_hex h2
  && match Net.xtoi (String h1 (String h2 EmptyString)) with
     | (v, i, ok) => (v =? b) && (i =? 2) && ok
     end.

End MacSpec.

(* ===================================================================== *)
(** ** What the theorems speak of *)
(* ===================================================================== *)

Import Spec MacSpec Json Kea Provider.

(** The request [make] builds for a hostname whose URL parses. *)
Definition post (c : Client) (hostname : string) (payload : Request) : HttpRequest :=
  mkHttpRequest "POST" (make_url hostname)
    [("Content-Type", "application/json"); ("Accept", "application/json")]
    (mkAuth (username (client_auth c)) (password (client_auth c)))
    [] (Some payload).

(** The requests a command sends to a host: none when the host's URL
    is rejected, and otherwise the one POST of its payload. *)
Definition sends `{GoLib} (c : Client) (hostname : string) (payload : Request)
  : list HttpRequest :=
  match url_Parse_error (make_url hostname) with
  | Some _ => []
  | None => [post c hostname payload]
  end.

(** The payload of [remote-subnet4-set]. *)
Definition set_request (c : Client) (subnets : list NewRemoteSubnet4) : Request :=
  mkRequest "remote-subnet4-set"
    (<["remote" := AnyStringMap {["type" := remote c]}]>
     (<["server-tags" := AnyStrings ["all"]]>
      (<["subnets" := AnyNewSubnets subnets]> ∅)))
    ["dhcp4"].

Definition get_by_prefix_request (c : Client) (prefix : string) : Request :=
  mkRequest "remote-subnet4-get-by-prefix"
    (<["remote" := AnyStringMap {["type" := remote c]}]>
     (<["subnets" := AnyStringMaps [ {["subnet" := prefix]} ]]> ∅))
    ["dhcp4"].

Definition get_by_id_request (c : Client) (id : Z) : Request :=
  mkRequest "remote-subnet4-get-by-id"
    (<["remote" := AnyStringMap {["type" := remote c]}]>
     (<["subnets" := AnyIntMaps [ {["id" := id]} ]]> ∅))
    ["dhcp4"].

Definition add_request (res : Reservation) : Request :=
  mkRequest "reservation-add" (<["reservation" := AnyReservation res]> ∅) ["dhcp4"].

Definition del_request (ipAddress : string) (subnetID : Z) : Request :=
  mkRequest "reservation-del"
    (<["subnet-id" := AnyInt subnetID]> (<["ip-address" := AnyString ipAddress]> ∅))
    ["dhcp4"].

(** The elements of a response array, decoded as [Response]s. *)
Definition envelopes (items : list json) : decoded (list Response) :=
  unm_items zero_Response unm_Response items.

(** The error a nonzero result code becomes. *)
Definition result_error (e : Response) : error :=
  Errorf ("result:" ++ itoa (Result e) ++ "(" ++ Text e ++ ")").

Definition is_array (body : Stream) : bool :=
  match body with
  | Document (JArray _) => true
  | _ => false
  end.

(** How the arguments of a lookup's answer decode into its result
    struct; arguments without a byte leave it empty. *)
Definition subnets_of (args : option json) : decoded (list RemoteSubnet4) :=
  match args with
  | None => ([], None)
  | Some j => unm_subnets "[]kea.RemoteSubnet4" zero_RemoteSubnet4 unm_RemoteSubnet4 j []
  end.

(** How the arguments of the answer to [remote-subnet4-set] decode. *)
Definition set_subnets_of (args : option json) : decoded (list RemoteSubnet4List) :=
  match args with
  | None => ([], None)
  | Some j =>
      unm_subnets "[]kea.RemoteSubnet4List" zero_RemoteSubnet4List unm_RemoteSubnet4List j []
  end.

(** What a lookup returns for an envelope [e0]. *)
Definition lookup_result (e0 : Response) : Outcome (RemoteSubnet4 * option error) :=
  if Result e0 =? 0 then
    match subnets_of (Arguments e0) with
    | (s0 :: _, None) => Returned (s0, None)
    | ([], None) => Panicked index_out_of_range
    | (_, Some text) =>
        Returned (zero_RemoteSubnet4,
                  Some (Errorf ("failure decoding payload: " ++ text)))
    end
  else Returned (zero_RemoteSubnet4, Some (result_error e0)).

(** What [Create] and [Update] report for a prefix that has no ID. *)
Definition unparseable (subnet : string) (e : error)
  : ResourceResponse remoteSubnet4ResourceSchema :=
  mkResourceResponse
    [ mkDiagnostic SeverityError "RemoteSubnet4Create"
        ("Unable to parse subnet4 prefix `" ++ subnet ++ "`, got error: " ++ Error e) ]
    None.

(** The state [Read] writes when the lookup found nothing: the entity
    with every attribute at its zero value. *)
Definition absent (config : remoteSubnet4ResourceSchema) : remoteSubnet4ResourceSchema :=
  mkSubnet4Schema (Hostname config) (Known 0) [] [] [] (Known "").

(** The option value sent for a declared option. *)
Definition option_data (o : remoteSubnet4OptionResourceModel) : Kea.OptionData :=
  mkOptionData (Some (ValueInt64 (OM_Code o))) (ValueString (OM_Data o))
               (ValueString (OM_Name o)) None (ValueBool (OM_AlwaysSend o)).

(** The desired subnet of scenario A, on a given host, with a given
    prior [id] attribute and three given option values. *)
Definition scenario_A (hostname : string) (id : tfval Z)
           (o1 o2 o3 : remoteSubnet4OptionResourceModel) : remoteSubnet4ResourceSchema :=
  mkSubnet4Schema (Known hostname) id [o1; o2; o3]
    [ mkPoolModel (Known "192.168.225.50-192.168.225.150") ]
    [ mkRelayModel (Known "192.168.225.1") ]
    (Known "192.168.225.0/24").

(** The subnet object scenario A puts on the wire. *)
Definition subnet_A (o1 o2 o3 : remoteSubnet4OptionResourceModel) : NewRemoteSubnet4 :=
  mkNewRemoteSubnet4 1921682250 "192.168.225.0/24" None
    [ mkPool "192.168.225.50-192.168.225.150" ]
    [ option_data o1; option_data o2; option_data o3 ]
    (mkRelay [ "192.168.225.1" ])
    ∅.

(** The fields [reservationResource.Delete] requires. *)
Definition delete_fields_present (config : reservationResourceSchema) : bool :=
  negb (IsNull (R_SubnetID config) || IsUnknown (R_SubnetID config))
  && negb (is_empty (R_Hostname config))
  && negb (is_empty (R_ReservationHostname config))
  && negb (is_empty (R_IPAddress config)).

(** The diagnostic with which [reservationResource.Delete] reports an
    error of [ReservationDel]. *)
Definition delete_failed (err : error) : Diagnostic :=
  mkDiagnostic SeverityError "ReservationDel"
    ("Unable to delete reservation, got error: " ++ Error err).

(** The credentials construction resolves: the explicit ones when an
    option set them, and the two environment variables otherwise. *)
Definition resolved_auth (getenv : Env) (opts : list Option) : auth :=
  match o_auth (apply_options opts) with
  | Some a => a
  | None => mkAuth (getenv "KEA_USERNAME") (getenv "KEA_PASSWORD")
  end.

Definition both_given (a : auth) : bool :=
  negb (String.eqb (username a) "") && negb (String.eqb (password a) "").

(** The operations of the client, each with its arguments. *)
Inductive Call : Type :=
| CallRemoteSubnet4List
| CallRemoteSubnet4GetByPrefix (prefix : string)
| CallRemoteSubnet4GetByID (id : Z)
| CallRemoteSubnet4DelByPrefix (prefix : string)
| CallRemoteSubnet4DelByID (id : Z)
| CallRemoteSubnet4Set (subnets : list NewRemoteSubnet4)
| CallRemoteOption4Set (subnetID : Z) (opts : list OptionReq)
| CallRemoteOption4Del (subnetID : Z) (opts : list OptionReq)
| CallRemoteOptionDef4Set (def : RemoteOptionDef4)
| CallRemoteOptionDef4Get (space : string) (code : Z)
| CallRemoteOptionDef4Del (space : string) (code : Z)
| CallReservationGetAll (subnetID : Z)
| CallReservationAdd (res : Reservation)
| CallReservationDel (ipAddress : string) (subnetID : Z)
| CallGetLease4All (subnetIDs : option (list Z))
| CallGetLease4ByIP (ip : string)
| CallGetLease4ByHost (host : string)
| CallGetLease4ByMac (mac : string)
| CallDelLease4 (ip : string).

(** The requests an operation sends to a host. *)
Definition sent_by `{GoLib} (c : Client) (hostname : string) (call : Call)
           (rt : RoundTripper) : list HttpRequest :=
  match call with
  | CallRemoteSubnet4List => snd (Client_RemoteSubnet4List c hostname rt)
  | CallRemoteSubnet4GetByPrefix prefix => snd (RemoteSubnet4GetByPrefix c hostname prefix rt)
  | CallRemoteSubnet4GetByID id => snd (RemoteSubnet4GetByID c hostname id rt)
  | CallRemoteSubnet4DelByPrefix prefix => snd (RemoteSubnet4DelByPrefix c hostname prefix rt)
  | CallRemoteSubnet4DelByID id => snd (RemoteSubnet4DelByID c hostname id rt)
  | CallRemoteSubnet4Set subnets => snd (RemoteSubnet4Set c hostname subnets rt)
  | CallRemoteOption4Set subnetID opts => snd (RemoteOption4Set c hostname subnetID opts rt)
  | CallRemoteOption4Del subnetID opts => snd (RemoteOption4Del c hostname subnetID opts rt)
  | CallRemoteOptionDef4Set def => snd (RemoteOptionDef4Set c hostname def rt)
  | CallRemoteOptionDef4Get space code => snd (RemoteOptionDef4Get c hostname space code rt)
  | CallRemoteOptionDef4Del space code => snd (RemoteOptionDef4Del c hostname space code rt)
  | CallReservationGetAll subnetID => snd (ReservationGetAll c hostname subnetID rt)
  | CallReservationAdd res => snd (ReservationAdd c hostname res rt)
  | CallReservationDel ipAddress subnetID => snd (ReservationDel c hostname ipAddress subnetID rt)
  | CallGetLease4All subnetIDs => snd (GetLease4All c hostname subnetIDs rt)
  | CallGetLease4ByIP ip => snd (GetLease4ByIP c hostname ip rt)
  | CallGetLease4ByHost host => snd (GetLease4ByHost c hostname host rt)
  | CallGetLease4ByMac mac => snd (GetLease4ByMac c hostname mac rt)
  | CallDelLease4 ip => snd (DelLease4 c hostname ip rt)
  end.

(* ===================================================================== *)
(** ** Concrete clients, resources and remote ends *)
(* ===================================================================== *)

Module Example.

(** A run-time library for the examples: no IPv6 address is accepted,
    every URL parses. *)
Definition lib : GoLib :=
  {| net_parseIPv6 := fun _ => None; url_Parse_error := fun _ => None |}.

Definition fmt : GoFmt := {| fmt_v_NewRemoteSubnet4 := fun _ => "{...}" |}.

Definition kea_client : Client :=
  mkClient (mkHttpClient (mkTransport true None) 0) InfoLevel
           (mkAuth "kea-user" "kea-pass") "postgresql".

(** A remote end that is never reached. *)
Definition unreachable : RoundTripper := fun _ => inl (LibError "connection refused").

(** A subnet resource whose prefix is no address. *)
Definition banana : remoteSubnet4ResourceSchema :=
  mkSubnet4Schema (Known "kea-primary.example.com") Null [] [] [] (Known "banana/24").

(** A subnet lookup and a remote end that answers "not found". *)
Definition lookup : HttpRequest :=
  post kea_client "kea-primary.example.com"
    (mkRequest "remote-subnet4-get-by-prefix"
       (<["remote" := AnyStringMap {["type" := "postgresql"]}]>
        (<["subnets" := AnyStringMaps [ {["subnet" := "192.168.225.0/24"]} ]]> ∅))
       ["dhcp4"]).

Definition not_found_body : Stream :=
  Document (JArray [JObject [("result", JInt 3);
                             ("text", JString "IPv4 subnet not found.");
                             ("arguments", JObject [("count", JInt 0);
                                                    ("subnets", JArray [])])]]).

Definition not_found : RoundTripper := fun _ => inr not_found_body.

(** The resource of the end-to-end scenarios. *)
Definition routers : remoteSubnet4OptionResourceModel :=
  mkOptionModel (Known 3) (Known "192.168.225.1") (Known "routers") Null.

Definition domain_name : remoteSubnet4OptionResourceModel :=
  mkOptionModel (Known 15) (Known "example.com") (Known "domain-name") Null.

Definition name_servers : remoteSubnet4OptionResourceModel :=
  mkOptionModel (Known 6) (Known "4.2.2.2, 8.8.8.8") (Known "domain-name-servers")
                (Known true).

Definition subnet_225 : remoteSubnet4ResourceSchema :=
  mkSubnet4Schema (Known "kea-primary.example.com") Null
    [ routers; domain_name; name_servers ]
    [ mkPoolModel (Known "192.168.225.50-192.168.225.150") ]
    [ mkRelayModel (Known "192.168.225.1") ]
    (Known "192.168.225.0/24").

(** A remote end that answers result 0 with an empty list of subnets. *)
Definition no_subnets_items : list json :=
  [JObject [("result", JInt 0);
            ("text", JString "0 IPv4 subnet(s) found.");
            ("arguments", JObject [("subnets", JArray [])])]].

Definition no_subnets : RoundTripper := fun _ => inr (Document (JArray no_subnets_items)).

Definition not_found_items : list json :=
  [JObject [("result", JInt 3);
            ("text", JString "IPv4 subnet not found.");
            ("arguments", JObject [("count", JInt 0); ("subnets", JArray [])])]].

(** A remote end that answers [remote-subnet4-set] as Kea does, listing
    the id and prefix of each subnet it was sent. *)
Definition echo (subnets : list NewRemoteSubnet4) : list json :=
  [JObject [("result", JInt 0);
            ("text", JString "IPv4 subnet successfully set.");
            ("arguments",
             JObject [("subnets",
                       JArray (map (fun s => JObject [("id", JInt (New_ID s));
                                                      ("subnet", JString (New_Subnet s))])
                                   subnets))])]].

Definition kea : RoundTripper := fun req =>
  match Body req with
  | Some r =>
      match Request_Arguments r !! "subnets" with
      | Some (AnyNewSubnets subnets) => inr (Document (JArray (echo subnets)))
      | _ => inr not_found_body
      end
  | None => inl (LibError "no body")
  end.

Definition switch : Reservation :=
  mkReservation "" "" "" "" "" "192.168.1.5" "B8:27:EB:9C:AE:B7" "switch.example.com"
                "" [] 1921681000 ∅.

(** A reservation resource to delete, and a remote end that holds no
    such reservation. *)
Definition gone : reservationResourceSchema :=
  mkReservationSchema (Known 1921681000) (Known "kea-primary.example.com")
    (Known "switch.example.com") Null Null Null Null Null
    (Known "192.168.1.5") (Known "b8:27:eb:9c:ae:b7") Null [] Null.

Definition no_host_items : list json :=
  [JObject [("result", JInt 3); ("text", JString "Host not deleted (not found).")]].

Definition no_host : RoundTripper := fun _ => inr (Document (JArray no_host_items)).

Definition kea_env : Env := fun name =>
  if String.eqb name "KEA_USERNAME" then "kea-user"
  else if String.eqb name "KEA_PASSWORD" then "kea-pass"
  else "".

End Example.

(* ===================================================================== *)
(** * Theorems *)
(* ===================================================================== *)

(** ** Library functions on the inputs of the specification *)

Example Atoi_1921682250 : Strconv.Atoi "1921682250" = (1921682250, None).
Proof. reflexivity. Qed.

Example Atoi_empty : snd (Strconv.Atoi "") <> None.
Proof. discriminate. Qed.

Section NetExamples.
Context `{GoLib}.

Example ParseIP_ok : Net.ParseIP "192.168.1.5" <> None.
Proof. discriminate. Qed.

Example ParseIP_999 : Net.ParseIP "999.1.1.1" = None.
Proof. reflexivity. Qed.

Example ParseIP_empty : Net.ParseIP "" = None.
Proof. reflexivity. Qed.

Example ParseIP_leading_zero : Net.ParseIP "192.168.01.5" = None.
Proof. reflexivity. Qed.

Example ParseMAC_upper :
  option_map Net.HardwareAddr_String (Net.ParseMAC "B8:27:EB:9C:AE:B7")
  = Some "b8:27:eb:9c:ae:b7".
Proof. reflexivity. Qed.

Example ParseMAC_dotted :
  option_map Net.HardwareAddr_String (Net.ParseMAC "b827.eb9c.aeb7")
  = Some "b8:27:eb:9c:ae:b7".
Proof. reflexivity. Qed.

Example ParseMAC_bad : Net.ParseMAC "not-a-mac" = None.
Proof. reflexivity. Qed.
End NetExamples.

(** ** Subnet identifier derivation *)

Lemma Split_hd (P : string) :
  hd "" (GoStrings.Split P "/"%char) = before_slash P.
Proof.
  induction P as [|c P IH]; simpl; [reflexivity|].
  destruct (Ascii.eqb c "/"); [reflexivity|].
  destruct (GoStrings.Split P "/") as [|piece rest]; simpl in *; congruence.
Qed.

Lemma Replace_cidrToIDRepl (s : string) :
  GoStrings.Replace Provider.cidrToIDRepl s
  = string_filter (fun c => negb (stripped c)) s.
Proof.
  induction s as [|c s IH]; simpl; [reflexivity|].
  unfold stripped.
  destruct (Ascii.eqb c "."); simpl; [exact IH|].
  destruct (Ascii.eqb c "/"); simpl; [exact IH|].
  destruct (Ascii.eqb c " "); simpl; [exact IH|].
  now rewrite IH.
Qed.

Lemma digit_of_is_digit (c : ascii) :
  Strconv.digit_of c
  = if is_digit c then Some (Z.of_nat (nat_of_ascii c) - 48) else None.
Proof.
  unfold Strconv.digit_of, is_digit.
  destruct (Nat.leb_spec 48 (nat_of_ascii c)), (Nat.leb_spec (nat_of_ascii c) 57);
    destruct (Z.leb_spec 48 (Z.of_nat (nat_of_ascii c))),
             (Z.leb_spec (Z.of_nat (nat_of_ascii c)) 57); simpl; try reflexivity; lia.
Qed.

Lemma is_digit_range (c : ascii) :
  is_digit c = true -> 0 <= Z.of_nat (nat_of_ascii c) - 48 <= 9.
Proof.
  unfold is_digit. rewrite andb_true_iff, !Nat.leb_le. lia.
Qed.

Lemma atoi_loop_digits (s : string) (n : Z) :
  string_forallb is_digit s = true ->
  Strconv.atoi_loop s n = Some (decimal_from s n).
Proof.
  revert n. induction s as [|c s IH]; intros n Hs; simpl in *; [reflexivity|].
  apply andb_true_iff in Hs as [Hc Hs].
  rewrite digit_of_is_digit, Hc, IH by assumption.
  do 2 f_equal. lia.
Qed.

Lemma atoi_loop_not_digits (s : string) (n : Z) :
  string_forallb is_digit s = false -> Strconv.atoi_loop s n = None.
Proof.
  revert n. induction s as [|c s IH]; intros n Hs; simpl in *; [discriminate|].
  rewrite digit_of_is_digit.
  destruct (is_digit c); simpl in *; [now apply IH | reflexivity].
Qed.

Lemma decimal_from_bounds (s : string) (n : Z) :
  string_forallb is_digit s = true -> 0 <= n ->
  n * 10 ^ Z.of_nat (String.length s) <= decimal_from s n
  < (n + 1) * 10 ^ Z.of_nat (String.length s).
Proof.
  revert n. induction s as [|c s IH]; intros n Hs Hn.
  - simpl. lia.
  - simpl in Hs. apply andb_true_iff in Hs as [Hc Hs].
    pose proof (is_digit_range c Hc) as Hd.
    cbn [String.length decimal_from].
    rewrite Nat2Z.inj_succ, Z.pow_succ_r by lia.
    specialize (IH (10 * n + (Z.of_nat (nat_of_ascii c) - 48)) Hs ltac:(lia)).
    assert (0 < 10 ^ Z.of_nat (String.length s)) by (apply Z.pow_pos_nonneg; lia).
    nia.
Qed.

Lemma decimal_from_mono (s : string) (n : Z) :
  string_forallb is_digit s = true -> 0 <= n -> n <= decimal_from s n.
Proof.
  intros Hs Hn. pose proof (decimal_from_bounds s n Hs Hn) as [H _].
  assert (0 < 10 ^ Z.of_nat (String.length s)) by (apply Z.pow_pos_nonneg; lia).
  nia.
Qed.

Lemma parseUint_loop_digits (s : string) (n : Z) :
  string_forallb is_digit s = true -> 0 <= n <= Strconv.maxUint64 ->
  Strconv.parseUint_loop s n
  = if decimal_from s n <=? Strconv.maxUint64
    then (decimal_from s n, None)
    else (Strconv.maxUint64, Some Strconv.ErrRange).
Proof.
  revert n. induction s as [|c s IH]; intros n Hs Hn.
  - simpl. destruct (Z.leb_spec n Strconv.maxUint64); [reflexivity|lia].
  - simpl in Hs. apply andb_true_iff in Hs as [Hc Hs].
    pose proof (is_digit_range c Hc) as Hd.
    cbn [Strconv.parseUint_loop decimal_from].
    rewrite digit_of_is_digit, Hc.
    set (d := Z.of_nat (nat_of_ascii c) - 48) in *.
    pose proof (decimal_from_mono s (10 * n + d) Hs ltac:(lia)) as Hm.
    replace (n * 10 + d) with (10 * n + d) by lia.
    destruct (Z.leb_spec Strconv.cutoff10 n) as [Hcut|Hcut].
    + change Strconv.cutoff10 with 1844674407370955162 in Hcut.
      change Strconv.maxUint64 with 18446744073709551615 in *.
      destruct (Z.leb_spec (decimal_from s (10 * n + d)) 18446744073709551615);
        [lia|reflexivity].
    + destruct (Z.ltb_spec Strconv.maxUint64 (10 * n + d)) as [Hov|Hov].
      * destruct (Z.leb_spec (decimal_from s (10 * n + d)) Strconv.maxUint64); [lia|reflexivity].
      * apply IH; [assumption|lia].
Qed.

Lemma parseUint_loop_not_digits (s : string) (n : Z) :
  string_forallb is_digit s = false ->
  Strconv.parseUint_loop s n = (0, Some Strconv.ErrSyntax)
  \/ Strconv.parseUint_loop s n = (Strconv.maxUint64, Some Strconv.ErrRange).
Proof.
  revert n. induction s as [|c s IH]; intros n Hs; simpl in *; [discriminate|].
  rewrite digit_of_is_digit.
  destruct (is_digit c); simpl in *; [|now left].
  destruct (Strconv.cutoff10 <=? n); [now right|].
  destruct (Strconv.maxUint64 <? _); [now right|].
  now apply IH.
Qed.

Lemma in_int64_true (z : Z) :
  - 2 ^ 63 <= z < 2 ^ 63 -> (- 2 ^ 63 <=? z) && (z <? 2 ^ 63) = true.
Proof. intros. apply andb_true_iff. rewrite Z.leb_le, Z.ltb_lt. lia. Qed.

Lemma in_int64_false (z : Z) :
  z < - 2 ^ 63 \/ 2 ^ 63 <= z -> (- 2 ^ 63 <=? z) && (z <? 2 ^ 63) = false.
Proof.
  intros. apply andb_false_iff. rewrite Z.leb_gt, Z.ltb_ge. lia.
Qed.

Lemma slow_core_ok (neg : bool) (body : string) :
  agrees (spec_core neg body)
    (match Strconv.ParseUint10 body with
     | (_, Some Strconv.ErrSyntax) => (0, Some Strconv.ErrSyntax)
     | (un, _) =>
         let cutoff := 2 ^ (Strconv.intSize - 1) in
         if negb neg && (cutoff <=? un) then (cutoff - 1, Some Strconv.ErrRange)
         else if neg && (cutoff <? un) then (- cutoff, Some Strconv.ErrRange)
         else (if neg then - un else un, None)
     end).
Proof.
  unfold spec_core, Strconv.ParseUint10, agrees.
  destruct body as [|b0 body']; [eauto|].
  set (body := String b0 body').
  change (2 ^ (Strconv.intSize - 1)) with (2 ^ 63). cbv zeta.
  destruct (string_forallb is_digit body) eqn:Hd.
  - rewrite (parseUint_loop_digits _ _ Hd) by (unfold Strconv.maxUint64; lia).
    fold (decimal body).
    pose proof (decimal_from_mono body 0 Hd ltac:(lia)) as Hpos.
    fold (decimal body) in Hpos.
    change Strconv.maxUint64 with (2 ^ 64 - 1).
    destruct (Z.leb_spec (decimal body) (2 ^ 64 - 1)) as [Hle|Hgt].
    + destruct neg; cbn [negb andb].
      * destruct (Z.ltb_spec (2 ^ 63) (decimal body)).
        -- rewrite in_int64_false by lia. eauto.
        -- rewrite in_int64_true by lia. reflexivity.
      * destruct (Z.leb_spec (2 ^ 63) (decimal body)).
        -- rewrite in_int64_false by lia. eauto.
        -- rewrite in_int64_true by lia. reflexivity.
    + rewrite in_int64_false by (destruct neg; lia).
      destruct neg; cbn [negb andb].
      * replace (2 ^ 63 <? 2 ^ 64 - 1) with true by reflexivity. eauto.
      * replace (2 ^ 63 <=? 2 ^ 64 - 1) with true by reflexivity. eauto.
  - destruct (parseUint_loop_not_digits body 0 Hd) as [E|E]; rewrite E; [eauto|].
    change Strconv.maxUint64 with (2 ^ 64 - 1).
    destruct neg; cbn [negb andb].
    + replace (2 ^ 63 <? 2 ^ 64 - 1) with true by reflexivity. eauto.
    + replace (2 ^ 63 <=? 2 ^ 64 - 1) with true by reflexivity. eauto.
Qed.

Lemma fast_core_ok (neg : bool) (body : string) (bad : error) :
  Z.of_nat (String.length body) < 19 ->
  match spec_core neg body with
  | Some z =>
      (if GoStrings.len body <? 1 then (0, Some bad)
       else match Strconv.atoi_loop body 0 with
            | None => (0, Some bad)
            | Some n => (if neg then - n else n, None)
            end) = (z, None)
  | None =>
      (if GoStrings.len body <? 1 then (0, Some bad)
       else match Strconv.atoi_loop body 0 with
            | None => (0, Some bad)
            | Some n => (if neg then - n else n, None)
            end) = (0, Some bad)
  end.
Proof.
  intros Hlen. unfold spec_core, GoStrings.len.
  destruct body as [|b0 body']; [reflexivity|].
  set (body := String b0 body') in *.
  replace (Z.of_nat (String.length body) <? 1) with false
    by (symmetry; apply Z.ltb_ge; subst body; cbn [String.length]; lia).
  destruct (string_forallb is_digit body) eqn:Hd.
  - rewrite (atoi_loop_digits _ _ Hd). fold (decimal body). cbv zeta.
    pose proof (decimal_from_bounds body 0 Hd ltac:(lia)) as [Hlo Hhi].
    fold (decimal body) in Hlo, Hhi.
    assert (10 ^ Z.of_nat (String.length body) <= 10 ^ 18)
      by (apply Z.pow_le_mono_r; lia).
    rewrite in_int64_true by (destruct neg; lia). reflexivity.
  - rewrite (atoi_loop_not_digits _ _ Hd). reflexivity.
Qed.

Lemma ParseInt10_parse_integer (s : string) :
  agrees (parse_integer s) (Strconv.ParseInt10 s).
Proof.
  destruct s as [|c0 s']; [cbn; eauto|].
  unfold parse_integer, Strconv.ParseInt10, Strconv.is_sign.
  destruct (Ascii.eqb c0 "+"), (Ascii.eqb c0 "-"); cbn [orb];
    first [ exact (slow_core_ok true s')
          | exact (slow_core_ok false s')
          | exact (slow_core_ok false (String c0 s')) ].
Qed.

(** [strconv.Atoi] accepts exactly the strings that write an integer a
    Go [int] holds, and returns that integer. *)
Lemma Atoi_parse_integer (s : string) :
  match parse_integer s with
  | Some z => Strconv.Atoi s = (z, None)
  | None => exists v e, Strconv.Atoi s = (v, Some e)
  end.
Proof.
  unfold Strconv.Atoi.
  destruct ((0 <? GoStrings.len s) && (GoStrings.len s <? 19)) eqn:Hfast.
  - apply andb_true_iff in Hfast as [_ Hlt]. apply Z.ltb_lt in Hlt.
    destruct s as [|c0 s']; [cbn; eauto|].
    unfold GoStrings.len in Hlt. cbn [String.length] in Hlt.
    unfold parse_integer, Strconv.is_sign.
    set (bad := Strconv.NumError "Atoi" (String c0 s') Strconv.ErrSyntax).
    destruct (Ascii.eqb c0 "+"), (Ascii.eqb c0 "-"); cbn [orb].
    + pose proof (fast_core_ok true s' bad ltac:(lia)) as H.
      unfold spec_core in H. destruct s'; [eauto|].
      destruct (string_forallb _ _); [|eauto].
      cbv zeta in H. destruct (_ && _); eauto.
    + pose proof (fast_core_ok false s' bad ltac:(lia)) as H.
      unfold spec_core in H. destruct s'; [eauto|].
      destruct (string_forallb _ _); [|eauto].
      cbv zeta in H. destruct (_ && _); eauto.
    + pose proof (fast_core_ok true s' bad ltac:(lia)) as H.
      unfold spec_core in H. destruct s'; [eauto|].
      destruct (string_forallb _ _); [|eauto].
      cbv zeta in H. destruct (_ && _); eauto.
    + pose proof (fast_core_ok false (String c0 s') bad
                    ltac:(cbn [String.length]; lia)) as H.
      unfold spec_core in H.
      destruct (string_forallb _ _); [|eauto].
      cbv zeta in H. destruct (_ && _); eauto.
  - pose proof (ParseInt10_parse_integer s) as H. unfold agrees in H.
    destruct (parse_integer s) as [z|].
    + now rewrite H.
    + destruct H as (v & e & ->). eauto.
Qed.

Lemma cidrToID_subnet_id (P : string) :
  match Spec.subnet_id P with
  | Some z => cidrToID P = (z, None)
  | None => exists v e, cidrToID P = (v, Some e)
  end.
Proof.
  unfold cidrToID, Spec.subnet_id, digit_string.
  rewrite Split_hd, Replace_cidrToIDRepl.
  apply Atoi_parse_integer.
Qed.

Lemma octets_checked : forallb octet_text_ok (seq 0 256) = true.
Proof. vm_compute. reflexivity. Qed.

Lemma octet_text (a : Z) :
  octet a ->
  string_forallb is_digit (itoa a) = true
  /\ (1 <= String.length (itoa a) <= 3)%nat.
Proof.
  intros [Hlo Hhi].
  pose proof (proj1 (forallb_forall _ _) octets_checked (Z.to_nat a)) as H.
  rewrite in_seq in H. specialize (H ltac:(lia)).
  unfold octet_text_ok in H. rewrite Z2Nat.id in H by lia.
  apply andb_true_iff in H as [H H3]. apply andb_true_iff in H as [Hd H1].
  apply Nat.leb_le in H1, H3. auto.
Qed.

Lemma string_forallb_app (p : ascii -> bool) (s t : string) :
  string_forallb p (s ++ t) = string_forallb p s && string_forallb p t.
Proof.
  induction s as [|c s IH]; simpl; [reflexivity|]. now rewrite IH, andb_assoc.
Qed.

Lemma string_filter_app (p : ascii -> bool) (s t : string) :
  string_filter p (s ++ t) = string_filter p s ++ string_filter p t.
Proof.
  induction s as [|c s IH]; simpl; [reflexivity|].
  destruct (p c); simpl; now rewrite IH.
Qed.

Lemma is_digit_kept (c : ascii) :
  is_digit c = true ->
  stripped c = false /\ Ascii.eqb c "/" = false
  /\ Ascii.eqb c "+" = false /\ Ascii.eqb c "-" = false.
Proof.
  intros Hc. unfold stripped.
  repeat split;
    repeat match goal with
    | |- context [Ascii.eqb c ?k] =>
        destruct (Ascii.eqb_spec c k) as [->|_]; [vm_compute in Hc; discriminate|]
    end; reflexivity.
Qed.

Lemma string_filter_digits (s : string) :
  string_forallb is_digit s = true ->
  string_filter (fun c => negb (stripped c)) s = s.
Proof.
  induction s as [|c s IH]; simpl; [reflexivity|].
  intros [Hc Hs]%andb_true_iff.
  destruct (is_digit_kept c Hc) as (-> & _). simpl. now rewrite IH.
Qed.

Lemma before_slash_digits (s t : string) :
  string_forallb is_digit s = true ->
  before_slash (s ++ t) = s ++ before_slash t.
Proof.
  induction s as [|c s IH]; simpl; [reflexivity|].
  intros [Hc Hs]%andb_true_iff.
  destruct (is_digit_kept c Hc) as (_ & -> & _). now rewrite IH.
Qed.

Lemma string_length_app (s t : string) :
  String.length (s ++ t) = (String.length s + String.length t)%nat.
Proof. induction s as [|c s IH]; simpl; [reflexivity | now rewrite IH]. Qed.

Lemma string_app_cons (c : ascii) (s t : string) :
  String c s ++ t = String c (s ++ t).
Proof. reflexivity. Qed.

Lemma string_app_nil_r (s : string) : s ++ "" = s.
Proof.
  induction s as [|c s IH]; [reflexivity|]. now rewrite string_app_cons, IH.
Qed.

Lemma cidr_unfold (a b c d n : Z) :
  cidr a b c d n
  = itoa a ++ String "." (itoa b ++ String "." (itoa c ++ String "."
      (itoa d ++ String "/" (itoa n)))).
Proof. reflexivity. Qed.

Lemma before_slash_dot (t : string) :
  before_slash (String "." t) = String "." (before_slash t).
Proof. reflexivity. Qed.

Lemma before_slash_slash (t : string) : before_slash (String "/" t) = "".
Proof. reflexivity. Qed.

Lemma string_filter_dot (t : string) :
  string_filter (fun c => negb (stripped c)) (String "." t)
  = string_filter (fun c => negb (stripped c)) t.
Proof. reflexivity. Qed.

Lemma digit_string_cidr (a b c d n : Z) :
  octet a -> octet b -> octet c -> octet d ->
  digit_string (cidr a b c d n) = itoa a ++ itoa b ++ itoa c ++ itoa d.
Proof.
  intros Ha Hb Hc Hd.
  destruct (octet_text a Ha) as [Da _], (octet_text b Hb) as [Db _],
           (octet_text c Hc) as [Dc _], (octet_text d Hd) as [Dd _].
  unfold digit_string. rewrite cidr_unfold.
  rewrite (before_slash_digits _ _ Da), before_slash_dot,
          (before_slash_digits _ _ Db), before_slash_dot,
          (before_slash_digits _ _ Dc), before_slash_dot,
          (before_slash_digits _ _ Dd), before_slash_slash.
  rewrite string_filter_app, string_filter_dot,
          string_filter_app, string_filter_dot,
          string_filter_app, string_filter_dot,
          string_filter_app.
  rewrite !string_filter_digits by assumption.
  cbn [string_filter]. now rewrite string_app_nil_r.
Qed.

Lemma parse_integer_digits (s : string) :
  string_forallb is_digit s = true ->
  (1 <= String.length s <= 18)%nat ->
  parse_integer s = Some (decimal s).
Proof.
  intros Ds Ls.
  pose proof (decimal_from_bounds s 0 Ds ltac:(lia)) as [Hlo Hhi].
  fold (decimal s) in Hlo, Hhi.
  assert (10 ^ Z.of_nat (String.length s) <= 10 ^ 18) by (apply Z.pow_le_mono_r; lia).
  destruct s as [|c0 s']; [simpl in Ls; lia|].
  assert (Hc0 : is_digit c0 = true).
  { simpl in Ds. now apply andb_true_iff in Ds as [? _]. }
  destruct (is_digit_kept c0 Hc0) as (_ & _ & Hp & Hm).
  unfold parse_integer. rewrite Hp, Hm. cbn [orb]. cbv zeta.
  rewrite Ds, in_int64_true by lia. reflexivity.
Qed.

Lemma subnet_id_cidr (a b c d n : Z) :
  octet a -> octet b -> octet c -> octet d ->
  Spec.subnet_id (cidr a b c d n)
  = Some (decimal (itoa a ++ itoa b ++ itoa c ++ itoa d)).
Proof.
  intros Ha Hb Hc Hd. unfold Spec.subnet_id.
  rewrite digit_string_cidr by assumption.
  destruct (octet_text a Ha) as [Da La], (octet_text b Hb) as [Db Lb],
           (octet_text c Hc) as [Dc Lc], (octet_text d Hd) as [Dd Ld].
  apply parse_integer_digits.
  - rewrite !string_forallb_app, Da, Db, Dc, Dd. reflexivity.
  - rewrite !string_length_app. lia.
Qed.

(** ** How a command runs *)

Ltac io := unfold bind, ret, Do, panic in *; cbn beta iota zeta in *.

Section Commands.
Context `{GoLib}.

(** [do] sends its request, only that, and returns. *)
Lemma do_sends {T} (c : Client) (req : HttpRequest) (u : option (Unmarshal T))
      (v : T) (rt : RoundTripper) :
  exists r, do c req u v rt = (Returned r, [req]).
Proof.
  unfold do. io.
  destruct (rt req) as [err|body]; [eauto|].
  destruct (checkResponse body) as [err|res]; [eauto|].
  destruct u as [u|]; [|eauto].
  destruct (Arguments res) as [j|]; [|eauto].
  destruct (Decode u (Document j) v) as [v' [e|]]; eauto.
Qed.

Lemma make_post (c : Client) (hostname : string) (payload : Request) :
  make c MethodPost hostname (Some payload) None
  = match url_Parse_error (make_url hostname) with
    | Some text => inl (LibError text)
    | None => inr (post c hostname payload)
    end.
Proof. unfold make. destruct (url_Parse_error _); reflexivity. Qed.

Lemma RemoteSubnet4Set_sends (c : Client) (hostname : string)
      (subnets : list NewRemoteSubnet4) (rt : RoundTripper) :
  snd (RemoteSubnet4Set c hostname subnets rt)
  = match url_Parse_error (make_url hostname) with
    | Some _ => []
    | None => [post c hostname (set_request c subnets)]
    end
  /\ exists r, fst (RemoteSubnet4Set c hostname subnets rt) = Returned r.
Proof.
  unfold RemoteSubnet4Set. rewrite make_post. fold (set_request c subnets).
  destruct (url_Parse_error _); [io; simpl; eauto|].
  io.
  destruct (do_sends c (post c hostname (set_request c subnets))
              (Some (unm_subnets "[]kea.RemoteSubnet4List" zero_RemoteSubnet4List
                       unm_RemoteSubnet4List)) [] rt) as [[[res err] v] ->].
  destruct err; simpl; eauto.
Qed.

End Commands.

Section SubnetResource.
Context `{GoLib} `{GoFmt}.

Lemma required_fields_ok (config : remoteSubnet4ResourceSchema) :
  HasError (required_fields config) = false -> required_fields config = [].
Proof.
  unfold required_fields.
  destruct (is_empty (Subnet config)), (is_empty (Hostname config));
    vm_compute; congruence.
Qed.

Lemma Create_unparseable (c : Client) (config : remoteSubnet4ResourceSchema)
      (rt : RoundTripper) (v : Z) (e : error) :
  HasError (required_fields config) = false ->
  cidrToID (ValueString (Subnet config)) = (v, Some e) ->
  Create c config rt = (Returned (unparseable (ValueString (Subnet config)) e), []).
Proof.
  intros Hreq Hid. unfold Create.
  rewrite (required_fields_ok _ Hreq). cbn [HasError existsb]. rewrite Hid.
  reflexivity.
Qed.

Lemma Update_unparseable (c : Client) (config : remoteSubnet4ResourceSchema)
      (rt : RoundTripper) (v : Z) (e : error) :
  HasError (required_fields config) = false ->
  cidrToID (ValueString (Subnet config)) = (v, Some e) ->
  Update c config rt = (Returned (unparseable (ValueString (Subnet config)) e), []).
Proof.
  intros Hreq Hid. unfold Update.
  rewrite (required_fields_ok _ Hreq). cbn [HasError existsb]. rewrite Hid.
  reflexivity.
Qed.

Lemma Create_sends (c : Client) (config : remoteSubnet4ResourceSchema)
      (rt : RoundTripper) (z : Z) :
  HasError (required_fields config) = false ->
  cidrToID (ValueString (Subnet config)) = (z, None) ->
  snd (Create c config rt) = sends c (ValueString (Hostname config)) (set_request c [newSubnet_of z config]).
Proof.
  intros Hreq Hid. unfold Create, sends.
  rewrite (required_fields_ok _ Hreq). cbn [HasError existsb]. rewrite Hid.
  destruct (RemoteSubnet4Set_sends c (ValueString (Hostname config))
              [newSubnet_of z config] rt) as [Hs [r Hr]].
  unfold bind.
  destruct (RemoteSubnet4Set _ _ _ rt) as [o sent]. simpl in Hs, Hr. subst o.
  destruct r as [respData [err|]]; [io; simpl; now rewrite app_nil_r|].
  destruct respData as [|res [|? ?]]; io; simpl; now rewrite app_nil_r.
Qed.

Lemma Update_sends (c : Client) (config : remoteSubnet4ResourceSchema)
      (rt : RoundTripper) (z : Z) :
  HasError (required_fields config) = false ->
  cidrToID (ValueString (Subnet config)) = (z, None) ->
  snd (Update c config rt) = sends c (ValueString (Hostname config)) (set_request c [newSubnet_of z config]).
Proof.
  intros Hreq Hid. unfold Update, sends.
  rewrite (required_fields_ok _ Hreq). cbn [HasError existsb]. rewrite Hid.
  destruct (RemoteSubnet4Set_sends c (ValueString (Hostname config))
              [newSubnet_of z config] rt) as [Hs [r Hr]].
  unfold bind.
  destruct (RemoteSubnet4Set _ _ _ rt) as [o sent]. simpl in Hs, Hr. subst o.
  destruct r as [respData [err|]]; [io; simpl; now rewrite app_nil_r|].
  destruct respData as [|res [|? ?]]; io; simpl; now rewrite app_nil_r.
Qed.

End SubnetResource.

Section SubnetID.
Context `{GoLib} `{GoFmt}.

(** C1. The subnet ID that [Create] and [Update] derive from a prefix
    [P] is the integer written by the part of [P] before the slash
    once dots, slashes and spaces are removed: the code's derivation
    [cidrToID] agrees with the specification's [Spec.subnet_id] on
    every string, succeeding exactly when that text writes an integer;
    every IPv4 CIDR text [a.b.c.d/n] has the ID written by the digits
    of its four octets; "192.168.225.0/24" has ID 1921682250; and on a
    request whose prefix has no ID both methods stop with the
    diagnostic "Unable to parse subnet4 prefix" and send nothing, while
    otherwise the only request they send carries the derived ID. The
    result depends on [P] alone. *)
Theorem subnet_id_derivation :
  (forall P : string,
      match Spec.subnet_id P with
      | Some z => cidrToID P = (z, None)
      | None => exists v e, cidrToID P = (v, Some e)
      end)
  /\ (forall a b c d n : Z,
         octet a -> octet b -> octet c -> octet d -> 0 <= n <= 32 ->
         cidrToID (cidr a b c d n)
         = (decimal (itoa a ++ itoa b ++ itoa c ++ itoa d), None))
  /\ cidrToID "192.168.225.0/24" = (1921682250, None)
  /\ (forall (c : Client) (config : remoteSubnet4ResourceSchema) (rt : RoundTripper),
         HasError (required_fields config) = false ->
         match Spec.subnet_id (ValueString (Subnet config)) with
         | Some z =>
             snd (Create c config rt) = sends c (ValueString (Hostname config)) (set_request c [newSubnet_of z config])
             /\ snd (Update c config rt) = sends c (ValueString (Hostname config)) (set_request c [newSubnet_of z config])
         | None =>
             exists e,
               Create c config rt
               = (Returned (unparseable (ValueString (Subnet config)) e), [])
               /\ Update c config rt
                  = (Returned (unparseable (ValueString (Subnet config)) e), [])
         end).
Proof.
  split; [exact cidrToID_subnet_id|].
  split.
  { intros a b c d n Ha Hb Hc Hd _.
    pose proof (cidrToID_subnet_id (cidr a b c d n)) as Hid.
    now rewrite subnet_id_cidr in Hid. }
  split; [reflexivity|].
  intros c config rt Hreq.
  pose proof (cidrToID_subnet_id (ValueString (Subnet config))) as Hid.
  destruct (Spec.subnet_id _) as [z|].
  - split; [now apply Create_sends | now apply Update_sends].
  - destruct Hid as (v & e & Hid). exists e.
    split; [now apply (Create_unparseable _ _ _ v) | now apply (Update_unparseable _ _ _ v)].
Qed.

End SubnetID.

Lemma subnet_id_derivation_witness :
  cidrToID (cidr 10 0 0 0 8) = (10000, None)
  /\ exists e,
       @Create Example.lib Example.fmt Example.kea_client Example.banana Example.unreachable
       = (Returned (unparseable "banana/24" e), []).
Proof.
  destruct (@subnet_id_derivation Example.lib Example.fmt) as (_ & Hcidr & _ & Hrun).
  split.
  - apply (Hcidr 10 0 0 0 8); unfold octet; lia.
  - destruct (Hrun Example.kea_client Example.banana Example.unreachable eq_refl)
      as (e & Hc & _).
    exists e. exact Hc.
Defined.

(** ** The response envelope *)

Lemma checkResponse_not_array (body : Stream) :
  is_array body = false -> exists err, checkResponse body = inl err.
Proof.
  unfold checkResponse, Decode.
  destruct body as [j|text]; [|eauto].
  destruct j; cbn; try discriminate; eauto.
Qed.

Lemma checkResponse_empty_array :
  checkResponse (Document (JArray []))
  = inl (Errorf "checkResponse(Unable to find response in [])").
Proof. reflexivity. Qed.

Lemma checkResponse_malformed (items : list json) (got : list Response) (text : string) :
  envelopes items = (got, Some text) ->
  exists err, checkResponse (Document (JArray items)) = inl err.
Proof.
  unfold envelopes, checkResponse, Decode. cbn [unm_slice]. intros ->. eauto.
Qed.

Lemma checkResponse_first (items : list json) (e0 : Response) (rest : list Response) :
  envelopes items = (e0 :: rest, None) ->
  checkResponse (Document (JArray items))
  = if Result e0 =? 0 then inr e0 else inl (result_error e0).
Proof.
  unfold envelopes, checkResponse, Decode. cbn [unm_slice]. intros ->. reflexivity.
Qed.

(** One envelope object, as the protocol writes it. *)
Lemma envelopes_object (n : Z) (text : string) (args : json) :
  in_int64 n = true ->
  envelopes [JObject [("result", JInt n); ("text", JString text); ("arguments", args)]]
  = ([mkResponse n text (Some args)], None).
Proof.
  intros Hn. unfold envelopes. cbn. rewrite Hn. reflexivity.
Qed.

Lemma envelopes_object_no_arguments (n : Z) (text : string) :
  in_int64 n = true ->
  envelopes [JObject [("result", JInt n); ("text", JString text)]]
  = ([mkResponse n text None], None).
Proof.
  intros Hn. unfold envelopes. cbn. rewrite Hn. reflexivity.
Qed.

Section Envelope.
Context {T : Type}.
Variables (c : Client) (req : HttpRequest) (rt : RoundTripper).
Variables (items : list json) (e0 : Response) (rest : list Response).
Hypothesis Hrt : rt req = inr (Document (JArray items)).
Hypothesis Hitems : envelopes items = (e0 :: rest, None).

Lemma do_nonzero (u : option (Unmarshal T)) (v : T) :
  Result e0 <> 0 ->
  do c req u v rt = (Returned (None, Some (result_error e0), v), [req]).
Proof.
  intros Hne. unfold do. io. rewrite Hrt, (checkResponse_first _ _ _ Hitems).
  apply Z.eqb_neq in Hne. rewrite Hne. reflexivity.
Qed.

Lemma do_no_target (v : T) :
  Result e0 = 0 ->
  do c req None v rt = (Returned (Some e0, None, v), [req]).
Proof.
  intros H0. unfold do. io. rewrite Hrt, (checkResponse_first _ _ _ Hitems), H0.
  reflexivity.
Qed.

Lemma do_empty_arguments (u : Unmarshal T) (v : T) :
  Result e0 = 0 -> Arguments e0 = None ->
  do c req (Some u) v rt = (Returned (Some e0, None, v), [req]).
Proof.
  intros H0 Ha. unfold do. io. rewrite Hrt, (checkResponse_first _ _ _ Hitems), H0.
  cbn. rewrite Ha. reflexivity.
Qed.

Lemma do_decodes (u : Unmarshal T) (v : T) (j : json) :
  Result e0 = 0 -> Arguments e0 = Some j ->
  do c req (Some u) v rt
  = match u j v with
    | (v', None) => (Returned (Some e0, None, v'), [req])
    | (v', Some text) =>
        (Returned (Some e0, Some (Errorf ("failure decoding payload: " ++ text)), v'),
         [req])
    end.
Proof.
  intros H0 Ha. unfold do. io. rewrite Hrt, (checkResponse_first _ _ _ Hitems), H0.
  cbn. rewrite Ha. unfold Decode. destruct (u j v) as [v' [text|]]; reflexivity.
Qed.

End Envelope.

(** C2. A response body that is not a JSON array, or is the empty
    array, or holds an element that is no envelope, makes
    [checkResponse] fail. Otherwise its first element decides: with
    result 0 [checkResponse] returns it and [do] hands its arguments
    to the caller's target ([do] with no target decodes nothing; with
    no arguments at all the target is left as it was and no error is
    returned; arguments that do not fit the target give the only error
    of this path, "failure decoding payload"); with any other result
    [do] returns the single error "result:<code>(<text>)" and the
    target is left as it was, whatever the arguments hold. *)
Theorem envelope_decoding {T : Type} (c : Client) (req : HttpRequest)
        (rt : RoundTripper) (body : Stream) (v : T) :
  rt req = inr body ->
  (is_array body = false -> exists err, checkResponse body = inl err
     /\ forall u, do c req u v rt = (Returned (None, Some err, v), [req]))
  /\ (body = Document (JArray []) ->
      forall u, do c req u v rt
                = (Returned (None, Some (Errorf "checkResponse(Unable to find response in [])"), v),
                   [req]))
  /\ (forall items got text,
         body = Document (JArray items) -> envelopes items = (got, Some text) ->
         exists err, checkResponse body = inl err)
  /\ (forall items e0 rest,
         body = Document (JArray items) -> envelopes items = (e0 :: rest, None) ->
         (Result e0 = 0 ->
            checkResponse body = inr e0
            /\ do c req None v rt = (Returned (Some e0, None, v), [req])
            /\ forall u : Unmarshal T,
                 match Arguments e0 with
                 | None => do c req (Some u) v rt = (Returned (Some e0, None, v), [req])
                 | Some j =>
                     do c req (Some u) v rt
                     = match u j v with
                       | (v', None) => (Returned (Some e0, None, v'), [req])
                       | (v', Some text) =>
                           (Returned (Some e0,
                                      Some (Errorf ("failure decoding payload: " ++ text)),
                                      v'), [req])
                       end
                 end)
         /\ (Result e0 <> 0 ->
             checkResponse body = inl (result_error e0)
             /\ Error (result_error e0)
                = "result:" ++ itoa (Result e0) ++ "(" ++ Text e0 ++ ")"
             /\ forall u, do c req u v rt
                          = (Returned (None, Some (result_error e0), v), [req]))).
Proof.
  intros Hrt. split; [|split; [|split]].
  - intros Hna. destruct (checkResponse_not_array body Hna) as [err Herr].
    exists err. split; [assumption|]. intros u. unfold do. io. now rewrite Hrt, Herr.
  - intros -> u. unfold do. io. now rewrite Hrt.
  - intros items got text -> Hm. eapply checkResponse_malformed; eauto.
  - intros items e0 rest -> Hitems. split.
    + intros Hzero. split; [|split].
      * rewrite (checkResponse_first _ _ _ Hitems), Hzero. reflexivity.
      * now apply (do_no_target c req rt items e0 rest).
      * intros u. destruct (Arguments e0) as [j|] eqn:Ha.
        -- now apply (do_decodes c req rt items e0 rest).
        -- now apply (do_empty_arguments c req rt items e0 rest).
    + intros Hne. split; [|split].
      * rewrite (checkResponse_first _ _ _ Hitems).
        apply Z.eqb_neq in Hne. now rewrite Hne.
      * reflexivity.
      * intros u. now apply (do_nonzero c req rt items e0 rest).
Qed.

Lemma envelope_decoding_witness :
  do Example.kea_client Example.lookup (Some (unm_subnets "[]kea.RemoteSubnet4"
                                          zero_RemoteSubnet4 unm_RemoteSubnet4))
     [] Example.not_found
  = (Returned (None, Some (Errorf "result:3(IPv4 subnet not found.)"), []),
     [Example.lookup]).
Proof.
  destruct (envelope_decoding Example.kea_client Example.lookup Example.not_found
              Example.not_found_body (@nil RemoteSubnet4) eq_refl)
    as (_ & _ & _ & Hfirst).
  destruct (Hfirst _ _ [] eq_refl
              (envelopes_object 3 "IPv4 subnet not found."
                 (JObject [("count", JInt 0); ("subnets", JArray [])]) eq_refl))
    as [_ Hnonzero].
  destruct (Hnonzero ltac:(discriminate)) as (_ & _ & Hdo).
  apply Hdo.
Defined.

(** ** Substrings *)

Lemma take_app (n : nat) (s t : string) :
  (n <= String.length s)%nat -> GoStrings.take n (s ++ t) = GoStrings.take n s.
Proof.
  revert s. induction n as [|n IH]; intros s Hn; [now destruct s|].
  destruct s as [|c s]; [simpl in Hn; lia|].
  rewrite string_app_cons. simpl in *. rewrite IH by lia. reflexivity.
Qed.

Lemma HasPrefix_app (s t prefix : string) :
  GoStrings.HasPrefix s prefix = true -> GoStrings.HasPrefix (s ++ t) prefix = true.
Proof.
  unfold GoStrings.HasPrefix. intros [Hl He]%andb_true_iff.
  apply Nat.leb_le in Hl. apply andb_true_iff. split.
  - apply Nat.leb_le. rewrite string_length_app. lia.
  - now rewrite take_app.
Qed.

Lemma Contains_app_r (s t sub : string) :
  GoStrings.Contains s sub = true -> GoStrings.Contains (s ++ t) sub = true.
Proof.
  induction s as [|c s IH]; intros Hc.
  - simpl in Hc. rewrite orb_false_r in Hc.
    pose proof (HasPrefix_app "" t _ Hc) as Ht.
    change ("" ++ t) with t in *.
    destruct t; simpl; rewrite Ht; reflexivity.
  - rewrite string_app_cons. simpl in *.
    apply orb_true_iff in Hc as [Hp|Hc].
    + rewrite <- string_app_cons, (HasPrefix_app _ t _ Hp). reflexivity.
    + rewrite (IH Hc). apply orb_true_r.
Qed.

Lemma Contains_app_l (s t sub : string) :
  GoStrings.Contains t sub = true -> GoStrings.Contains (s ++ t) sub = true.
Proof.
  induction s as [|c s IH]; intros Hc; [assumption|].
  rewrite string_app_cons. simpl. rewrite (IH Hc). apply orb_true_r.
Qed.

(** The rendered error of a result code carries the text, and with it
    whatever the text contains. *)
Lemma result_error_Contains (e : Response) (sub : string) :
  GoStrings.Contains (Text e) sub = true ->
  GoStrings.Contains (Error (result_error e)) sub = true.
Proof.
  intros Hc. unfold result_error, Error.
  apply Contains_app_l, Contains_app_l, Contains_app_l, Contains_app_r. exact Hc.
Qed.

(** ** Subnet lookups *)

Section Lookups.
Context `{GoLib}.
Variables (c : Client) (hostname : string) (rt : RoundTripper).
Variables (items : list json) (e0 : Response) (rest : list Response).
Hypothesis Hurl : url_Parse_error (make_url hostname) = None.
Hypothesis Hitems : envelopes items = (e0 :: rest, None).

Lemma lookup_runs (payload : Request) :
  rt (post c hostname payload) = inr (Document (JArray items)) ->
  (r <- do c (post c hostname payload)
          (Some (unm_subnets "[]kea.RemoteSubnet4" zero_RemoteSubnet4 unm_RemoteSubnet4)) [] ;;
   match r with
   | (_, Some err, _) => ret (zero_RemoteSubnet4, Some err)
   | (_, None, Subnets) =>
       match Subnets with
       | s0 :: _ => ret (s0, None)
       | [] => panic index_out_of_range
       end
   end) rt
  = (lookup_result e0, [post c hostname payload]).
Proof.
  intros Hrt. unfold lookup_result, bind.
  destruct (Z.eqb_spec (Result e0) 0) as [Hz|Hnz].
  - destruct (Arguments e0) as [j|] eqn:Ha.
    + rewrite (do_decodes c _ rt items e0 rest Hrt Hitems _ _ j Hz Ha).
      unfold subnets_of.
      destruct (unm_subnets _ _ _ j []) as [[|s0 more] [text|]]; reflexivity.
    + rewrite (do_empty_arguments c _ rt items e0 rest Hrt Hitems _ _ Hz Ha).
      reflexivity.
  - rewrite (do_nonzero c _ rt items e0 rest Hrt Hitems _ _ Hnz). reflexivity.
Qed.

Lemma RemoteSubnet4GetByPrefix_runs (prefix : string) :
  rt (post c hostname (get_by_prefix_request c prefix)) = inr (Document (JArray items)) ->
  RemoteSubnet4GetByPrefix c hostname prefix rt
  = (lookup_result e0, [post c hostname (get_by_prefix_request c prefix)]).
Proof.
  intros Hrt. unfold RemoteSubnet4GetByPrefix.
  fold (get_by_prefix_request c prefix). rewrite make_post, Hurl.
  now apply lookup_runs.
Qed.

Lemma RemoteSubnet4GetByID_runs (id : Z) :
  rt (post c hostname (get_by_id_request c id)) = inr (Document (JArray items)) ->
  RemoteSubnet4GetByID c hostname id rt
  = (lookup_result e0, [post c hostname (get_by_id_request c id)]).
Proof.
  intros Hrt. unfold RemoteSubnet4GetByID.
  fold (get_by_id_request c id). rewrite make_post, Hurl.
  now apply lookup_runs.
Qed.

End Lookups.

Section AllCommands.
Context `{GoLib}.

(** Whatever follows the one [do] of a command sends nothing more. *)
Ltac after_do :=
  repeat match goal with
         | |- context [match ?x with _ => _ end] =>
             first [ is_var x; destruct x
                   | match x with
                     | OptionDefs _ => destruct x
                     | GoStrings.Contains _ _ => destruct x
                     end ]
         end.

Ltac one_post :=
  rewrite make_post;
  destruct (url_Parse_error _); [intros []|];
  unfold bind;
  match goal with
  | |- context [do ?c ?rq ?u ?v ?rt] =>
      let res := fresh "res" in
      let err := fresh "err" in
      let v' := fresh "v" in
      destruct (do_sends c rq u v rt) as [[[res err] v'] ->]
  end;
  after_do; cbn; intros [<-|[]]; split; reflexivity.

(** Every request of every operation is a POST to the URL of its host. *)
Lemma commands_post (c : Client) (hostname : string) (call : Call)
      (rt : RoundTripper) (req : HttpRequest) :
  In req (sent_by c hostname call rt) ->
  Method req = "POST" /\ URL req = make_url hostname.
Proof.
  destruct call; cbn [sent_by];
    unfold Client_RemoteSubnet4List, RemoteSubnet4GetByPrefix, RemoteSubnet4GetByID,
      RemoteSubnet4DelByPrefix, RemoteSubnet4DelByID, RemoteSubnet4Set,
      RemoteOption4Set, RemoteOption4Del, RemoteOptionDef4Set, RemoteOptionDef4Get,
      RemoteOptionDef4Del, ReservationGetAll, ReservationAdd, ReservationDel,
      GetLease4All, GetLease4ByIP, GetLease4ByHost, GetLease4ByMac, DelLease4;
    try (destruct (Net.ParseIP _); [|intros []]);
    try (destruct (Net.ParseMAC _); [|intros []]);
    one_post.
Qed.

(** ** Reads that find nothing *)

Section NotFound.
Variables (c : Client) (hostname : string) (rt : RoundTripper).
Variables (items : list json) (e0 : Response) (rest : list Response).
Hypothesis Hurl : url_Parse_error (make_url hostname) = None.
Hypothesis Hrt : forall req, rt req = inr (Document (JArray items)).
Hypothesis Hitems : envelopes items = (e0 :: rest, None).
Hypothesis Hnz : Result e0 <> 0.

Ltac refused :=
  rewrite make_post, Hurl; unfold bind;
  match goal with
  | |- context [do ?c ?rq ?u ?v ?rt] =>
      rewrite (do_nonzero c rq rt items e0 rest (Hrt rq) Hitems u v Hnz)
  end;
  reflexivity.

Lemma RemoteSubnet4List_refused :
  fst (Client_RemoteSubnet4List c hostname rt) = Returned ([], Some (result_error e0)).
Proof. unfold Client_RemoteSubnet4List. refused. Qed.

Lemma RemoteSubnet4GetByID_refused (id : Z) :
  fst (RemoteSubnet4GetByID c hostname id rt)
  = Returned (zero_RemoteSubnet4, Some (result_error e0)).
Proof. unfold RemoteSubnet4GetByID. refused. Qed.

Lemma ReservationGetAll_refused (subnetID : Z) :
  fst (ReservationGetAll c hostname subnetID rt) = Returned ([], Some (result_error e0)).
Proof. unfold ReservationGetAll. refused. Qed.

Lemma GetLease4All_refused (subnetIDs : option (list Z)) :
  fst (GetLease4All c hostname subnetIDs rt) = Returned ([], Some (result_error e0)).
Proof. unfold GetLease4All. refused. Qed.

Lemma GetLease4ByIP_refused (ip : string) :
  fst (GetLease4ByIP c hostname ip rt) = Returned (zero_Lease4, Some (result_error e0)).
Proof. unfold GetLease4ByIP. refused. Qed.

Lemma GetLease4ByHost_refused (host : string) :
  fst (GetLease4ByHost c hostname host rt) = Returned ([], Some (result_error e0)).
Proof. unfold GetLease4ByHost. refused. Qed.

Lemma GetLease4ByMac_refused (mac : string) :
  fst (GetLease4ByMac c hostname mac rt) = Returned ([], Some (result_error e0)).
Proof. unfold GetLease4ByMac. refused. Qed.

(** [RemoteOptionDef4Get] filters the text itself. *)
Lemma RemoteOptionDef4Get_not_found (space : string) (code : Z) :
  GoStrings.Contains (Text e0) "not found" = true ->
  fst (RemoteOptionDef4Get c hostname space code rt) = Returned (None, None).
Proof.
  intros Hnf. unfold RemoteOptionDef4Get.
  rewrite make_post, Hurl. unfold bind.
  match goal with
  | |- context [do ?c ?rq ?u ?v ?rt] =>
      rewrite (do_nonzero c rq rt items e0 rest (Hrt rq) Hitems u v Hnz)
  end.
  cbn beta iota. rewrite (result_error_Contains e0 _ Hnf). reflexivity.
Qed.

End NotFound.

End AllCommands.

Section ReadAbsent.
Context `{GoLib}.

Lemma Read_not_found (c : Client) (config : remoteSubnet4ResourceSchema)
      (rt : RoundTripper) (e : error) (sent : list HttpRequest) :
  HasError (required_fields config) = false ->
  RemoteSubnet4GetByPrefix c (ValueString (Hostname config))
                           (ValueString (Subnet config)) rt
  = (Returned (zero_RemoteSubnet4, Some e), sent) ->
  GoStrings.Contains (Error e) "not found" = true ->
  Read c config rt = (Returned (mkResourceResponse [] (Some (absent config))), sent).
Proof.
  intros Hreq Hget Hnf. unfold Read.
  rewrite (required_fields_ok _ Hreq). cbn [HasError existsb].
  unfold bind. rewrite Hget. cbn beta iota zeta. rewrite Hnf.
  cbn. now rewrite app_nil_r.
Qed.

(** C4. When the server answers a [remote-subnet4-get-by-prefix] with
    result 3 and a text that says "not found",
    [RemoteSubnet4GetByPrefix] returns the empty subnet together with
    the error "result:3(<text>)", whose text still says "not found";
    [Read], the caller that filters on that text, reports no error and
    writes the empty entity. In general: against a server that gives
    this answer, the lookup by ID, the subnet list, the reservation
    list and the lease reads (all, by address, by host name, by MAC)
    return their empty value with that error, and the option
    definition lookup, which filters the text itself, returns no
    definition and no error; an answer with result 0 that lists
    subnets gives the first of them and no error. *)
Theorem not_found_reads_as_absent
        (c : Client) (config : remoteSubnet4ResourceSchema) (rt : RoundTripper)
        (items : list json) (e0 : Response) (rest : list Response) :
  let hostname := ValueString (Hostname config) in
  let prefix := ValueString (Subnet config) in
  let req := post c hostname (get_by_prefix_request c prefix) in
  HasError (required_fields config) = false ->
  url_Parse_error (make_url hostname) = None ->
  rt req = inr (Document (JArray items)) ->
  envelopes items = (e0 :: rest, None) ->
  Result e0 = 3 ->
  GoStrings.Contains (Text e0) "not found" = true ->
  RemoteSubnet4GetByPrefix c hostname prefix rt
  = (Returned (zero_RemoteSubnet4, Some (result_error e0)), [req])
  /\ GoStrings.Contains (Error (result_error e0)) "not found" = true
  /\ Read c config rt = (Returned (mkResourceResponse [] (Some (absent config))), [req])
  /\ (forall rt' : RoundTripper,
         (forall r, rt' r = inr (Document (JArray items))) ->
         (forall id, fst (RemoteSubnet4GetByID c hostname id rt')
                     = Returned (zero_RemoteSubnet4, Some (result_error e0)))
         /\ fst (Client_RemoteSubnet4List c hostname rt')
            = Returned ([], Some (result_error e0))
         /\ (forall subnetID, fst (ReservationGetAll c hostname subnetID rt')
                              = Returned ([], Some (result_error e0)))
         /\ (forall subnetIDs, fst (GetLease4All c hostname subnetIDs rt')
                               = Returned ([], Some (result_error e0)))
         /\ (forall ip, fst (GetLease4ByIP c hostname ip rt')
                        = Returned (zero_Lease4, Some (result_error e0)))
         /\ (forall host, fst (GetLease4ByHost c hostname host rt')
                          = Returned ([], Some (result_error e0)))
         /\ (forall mac, fst (GetLease4ByMac c hostname mac rt')
                         = Returned ([], Some (result_error e0)))
         /\ (forall space code, fst (RemoteOptionDef4Get c hostname space code rt')
                                = Returned (None, None)))
  /\ (forall (rt' : RoundTripper) (items' : list json) (e1 : Response)
             (rest' : list Response) (s0 : RemoteSubnet4) (more : list RemoteSubnet4),
         rt' req = inr (Document (JArray items')) ->
         envelopes items' = (e1 :: rest', None) ->
         Result e1 = 0 ->
         subnets_of (Arguments e1) = (s0 :: more, None) ->
         RemoteSubnet4GetByPrefix c hostname prefix rt' = (Returned (s0, None), [req])).
Proof.
  intros hostname prefix req Hreq Hurl Hrt Hitems H3 Hnf.
  assert (Hlookup : lookup_result e0
                    = Returned (zero_RemoteSubnet4, Some (result_error e0))).
  { unfold lookup_result. now rewrite H3. }
  assert (Hget : RemoteSubnet4GetByPrefix c hostname prefix rt
                 = (Returned (zero_RemoteSubnet4, Some (result_error e0)), [req])).
  { rewrite <- Hlookup. now apply (RemoteSubnet4GetByPrefix_runs c hostname rt items e0 rest). }
  split; [exact Hget|].
  split; [now apply result_error_Contains|].
  split; [apply (Read_not_found c config rt (result_error e0) [req]);
          auto using result_error_Contains|].
  split.
  - intros rt' Hrt'.
    assert (Hnz : Result e0 <> 0) by (rewrite H3; discriminate).
    split; [intros; now apply (RemoteSubnet4GetByID_refused c hostname rt' items e0 rest)|].
    split; [now apply (RemoteSubnet4List_refused c hostname rt' items e0 rest)|].
    split; [intros; now apply (ReservationGetAll_refused c hostname rt' items e0 rest)|].
    split; [intros; now apply (GetLease4All_refused c hostname rt' items e0 rest)|].
    split; [intros; now apply (GetLease4ByIP_refused c hostname rt' items e0 rest)|].
    split; [intros; now apply (GetLease4ByHost_refused c hostname rt' items e0 rest)|].
    split; [intros; now apply (GetLease4ByMac_refused c hostname rt' items e0 rest)|].
    intros; now apply (RemoteOptionDef4Get_not_found c hostname rt' items e0 rest).
  - intros rt' items' e1 rest' s0 more Hrt' Hitems' Hz Hsub.
    rewrite (RemoteSubnet4GetByPrefix_runs c hostname rt' items' e1 rest' Hurl Hitems' _ Hrt').
    unfold lookup_result. now rewrite Hz, Hsub.
Qed.

(** C6. When the server answers a lookup with result 0 and arguments
    whose [subnets] list is empty or absent (no arguments at all,
    [null], an object without the key, or an empty or null list),
    [RemoteSubnet4GetByPrefix] and [RemoteSubnet4GetByID] index the
    first element of the empty list: the call panics with "index out
    of range" after the request was sent, and returns neither an error
    nor an empty subnet. *)
Theorem lookup_panics_without_subnets
        (c : Client) (hostname : string) (rt : RoundTripper)
        (items : list json) (e0 : Response) (rest : list Response) :
  url_Parse_error (make_url hostname) = None ->
  envelopes items = (e0 :: rest, None) ->
  Result e0 = 0 ->
  subnets_of (Arguments e0) = ([], None) ->
  (forall prefix : string,
      rt (post c hostname (get_by_prefix_request c prefix)) = inr (Document (JArray items)) ->
      RemoteSubnet4GetByPrefix c hostname prefix rt
      = (Panicked index_out_of_range, [post c hostname (get_by_prefix_request c prefix)]))
  /\ (forall id : Z,
         rt (post c hostname (get_by_id_request c id)) = inr (Document (JArray items)) ->
         RemoteSubnet4GetByID c hostname id rt
         = (Panicked index_out_of_range, [post c hostname (get_by_id_request c id)]))
  /\ subnets_of None = ([], None)
  /\ subnets_of (Some JNull) = ([], None)
  /\ subnets_of (Some (JObject [])) = ([], None)
  /\ subnets_of (Some (JObject [("subnets", JNull)])) = ([], None)
  /\ subnets_of (Some (JObject [("subnets", JArray [])])) = ([], None).
Proof.
  intros Hurl Hitems Hz Hsub.
  assert (Hlookup : lookup_result e0 = Panicked index_out_of_range).
  { unfold lookup_result. now rewrite Hz, Hsub. }
  split; [|split; [|repeat split]].
  - intros prefix Hrt. rewrite <- Hlookup.
    now apply (RemoteSubnet4GetByPrefix_runs c hostname rt items e0 rest).
  - intros id Hrt. rewrite <- Hlookup.
    now apply (RemoteSubnet4GetByID_runs c hostname rt items e0 rest).
Qed.

End ReadAbsent.

Lemma not_found_reads_as_absent_witness :
  @Read Example.lib Example.kea_client Example.subnet_225 Example.not_found
  = (Returned (mkResourceResponse [] (Some (absent Example.subnet_225))),
     [Example.lookup]).
Proof.
  destruct (@not_found_reads_as_absent Example.lib Example.kea_client
              Example.subnet_225 Example.not_found Example.not_found_items
              (mkResponse 3 "IPv4 subnet not found."
                 (Some (JObject [("count", JInt 0); ("subnets", JArray [])])))
              [] eq_refl eq_refl eq_refl eq_refl eq_refl eq_refl)
    as (_ & _ & Hread & _).
  exact Hread.
Defined.

Lemma lookup_panics_without_subnets_witness :
  fst (@RemoteSubnet4GetByPrefix Example.lib Example.kea_client
         "kea-primary.example.com" "192.168.225.0/24" Example.no_subnets)
  = Panicked "runtime error: index out of range [0] with length 0"
  /\ fst (@RemoteSubnet4GetByID Example.lib Example.kea_client
            "kea-primary.example.com" 1921682250 Example.no_subnets)
     = Panicked "runtime error: index out of range [0] with length 0".
Proof.
  destruct (@lookup_panics_without_subnets Example.lib Example.kea_client
              "kea-primary.example.com" Example.no_subnets Example.no_subnets_items
              (mkResponse 0 "0 IPv4 subnet(s) found."
                 (Some (JObject [("subnets", JArray [])])))
              [] eq_refl eq_refl eq_refl eq_refl)
    as (Hprefix & Hid & _).
  split.
  - now rewrite (Hprefix "192.168.225.0/24" eq_refl).
  - now rewrite (Hid 1921682250 eq_refl).
Defined.

(** ** Creating a subnet *)

Section CreateSubnet.
Context `{GoLib} `{GoFmt}.

Lemma set_request_subnets (c : Client) (subnets : list NewRemoteSubnet4) :
  Command (set_request c subnets) = "remote-subnet4-set"
  /\ Service (set_request c subnets) = ["dhcp4"]
  /\ Request_Arguments (set_request c subnets) !! "subnets" = Some (AnyNewSubnets subnets)
  /\ Request_Arguments (set_request c subnets) !! "server-tags" = Some (AnyStrings ["all"])
  /\ Request_Arguments (set_request c subnets) !! "remote"
     = Some (AnyStringMap {["type" := remote c]}).
Proof.
  unfold set_request. cbn [Command Service Request_Arguments].
  repeat split; by simplify_map_eq.
Qed.

Lemma RemoteSubnet4Set_runs (c : Client) (hostname : string)
      (subnets : list NewRemoteSubnet4) (rt : RoundTripper)
      (items : list json) (e0 : Response) (rest : list Response)
      (listed : list RemoteSubnet4List) :
  url_Parse_error (make_url hostname) = None ->
  rt (post c hostname (set_request c subnets)) = inr (Document (JArray items)) ->
  envelopes items = (e0 :: rest, None) ->
  Result e0 = 0 ->
  set_subnets_of (Arguments e0) = (listed, None) ->
  RemoteSubnet4Set c hostname subnets rt
  = (Returned (listed, None), [post c hostname (set_request c subnets)]).
Proof.
  intros Hurl Hrt Hitems Hz Hl. unfold RemoteSubnet4Set.
  fold (set_request c subnets). rewrite make_post, Hurl. unfold bind.
  unfold set_subnets_of in Hl. destruct (Arguments e0) as [j|] eqn:Ha.
  - rewrite (do_decodes c _ rt items e0 rest Hrt Hitems _ _ j Hz Ha), Hl. reflexivity.
  - rewrite (do_empty_arguments c _ rt items e0 rest Hrt Hitems _ _ Hz Ha).
    injection Hl as <-. reflexivity.
Qed.

Lemma scenario_A_fields (hostname : string) (id : tfval Z)
      (o1 o2 o3 : remoteSubnet4OptionResourceModel) :
  hostname <> "" -> required_fields (scenario_A hostname id o1 o2 o3) = [].
Proof.
  intros Hh. unfold required_fields, scenario_A, is_empty.
  cbn [Subnet Hostname IsNull IsUnknown ValueString orb].
  apply String.eqb_neq in Hh. rewrite Hh. reflexivity.
Qed.

(** C3. Creating the subnet 192.168.225.0/24 with the pool
    192.168.225.50-192.168.225.150, the relay 192.168.225.1 and three
    option values sends exactly one request: a POST of the command
    [remote-subnet4-set] whose [subnets] argument is the one object
    with id 1921682250, subnet "192.168.225.0/24" and the declared
    pool, relay and option values, whatever the [id] attribute held
    before. When the server answers with result 0 and lists the subnet
    it set under that id, [Create] reports no error and its state has
    ID 1921682250. *)
Theorem create_subnet_scenario
        (c : Client) (hostname : string) (id : tfval Z)
        (o1 o2 o3 : remoteSubnet4OptionResourceModel) (rt : RoundTripper) :
  let config := scenario_A hostname id o1 o2 o3 in
  let payload := set_request c [subnet_A o1 o2 o3] in
  hostname <> "" ->
  url_Parse_error (make_url hostname) = None ->
  snd (Create c config rt) = [post c hostname payload]
  /\ Method (post c hostname payload) = "POST"
  /\ Command payload = "remote-subnet4-set"
  /\ Request_Arguments payload !! "subnets" = Some (AnyNewSubnets [subnet_A o1 o2 o3])
  /\ (forall (items : list json) (e0 : Response) (rest : list Response)
             (res : RemoteSubnet4List),
         rt (post c hostname payload) = inr (Document (JArray items)) ->
         envelopes items = (e0 :: rest, None) ->
         Result e0 = 0 ->
         set_subnets_of (Arguments e0) = ([res], None) ->
         RL_ID res = 1921682250 ->
         fst (Create c config rt)
         = Returned (mkResourceResponse []
                       (Some (with_id_subnet 1921682250 (RL_Subnet res) config)))).
Proof.
  intros config payload Hh Hurl.
  assert (Hreq : HasError (required_fields config) = false)
    by (unfold config; now rewrite scenario_A_fields by assumption).
  assert (Hid : cidrToID (ValueString (Subnet config)) = (1921682250, None))
    by reflexivity.
  split.
  { rewrite (Create_sends c config rt 1921682250 Hreq Hid).
    unfold sends. cbn [config scenario_A Hostname ValueString]. now rewrite Hurl. }
  split; [reflexivity|].
  destruct (set_request_subnets c [subnet_A o1 o2 o3]) as (Hc & _ & Hs & _).
  split; [exact Hc|]. split; [exact Hs|].
  intros items e0 rest res Hrt Hitems Hz Hl Hres.
  unfold Create. rewrite (required_fields_ok _ Hreq).
  cbn [HasError existsb]. rewrite Hid. unfold bind.
  change (newSubnet_of 1921682250 config) with (subnet_A o1 o2 o3).
  change (ValueString (Hostname config)) with hostname.
  rewrite (RemoteSubnet4Set_runs c hostname _ rt items e0 rest [res] Hurl Hrt Hitems Hz Hl).
  cbn. now rewrite Hres.
Qed.

End CreateSubnet.

Lemma create_subnet_scenario_witness :
  @Create Example.lib Example.fmt Example.kea_client Example.subnet_225 Example.kea
  = (Returned (mkResourceResponse []
       (Some (with_id_subnet 1921682250 "192.168.225.0/24" Example.subnet_225))),
     [post Example.kea_client "kea-primary.example.com"
        (set_request Example.kea_client
           [subnet_A Example.routers Example.domain_name Example.name_servers])]).
Proof.
  destruct (@create_subnet_scenario Example.lib Example.fmt Example.kea_client
              "kea-primary.example.com" Null
              Example.routers Example.domain_name Example.name_servers
              Example.kea ltac:(discriminate) eq_refl)
    as (Hsent & _ & _ & _ & Hstate).
  apply injective_projections; cbn [fst snd].
  - apply (Hstate
             (Example.echo
                [subnet_A Example.routers Example.domain_name Example.name_servers])
             (mkResponse 0 "IPv4 subnet successfully set."
                (Some (JObject [("subnets",
                   JArray [JObject [("id", JInt 1921682250);
                                    ("subnet", JString "192.168.225.0/24")]])])))
             [] (mkRemoteSubnet4List 1921682250 zero_Metadata "" "192.168.225.0/24"));
      vm_compute; reflexivity.
  - exact Hsent.
Defined.

(** ** Hardware addresses *)

Lemma pairs_checked : forallb pair_ok (seq 0 256) = true.
Proof. vm_compute. reflexivity. Qed.

Lemma pair_facts (b : Z) :
  is_byte b ->
  lower_hex (Net.hexDigit (Z.shiftr b 4)) = true
  /\ lower_hex (Net.hexDigit (Z.land b 0xF)) = true
  /\ Net.xtoi (String (Net.hexDigit (Z.shiftr b 4))
                 (String (Net.hexDigit (Z.land b 0xF)) EmptyString))
     = (b, 2, true).
Proof.
  intros [Hlo Hhi].
  pose proof (proj1 (forallb_forall _ _) pairs_checked (Z.to_nat b)) as Hb.
  rewrite in_seq in Hb. specialize (Hb ltac:(lia)).
  unfold pair_ok in Hb. rewrite Z2Nat.id in Hb by lia. cbv zeta in Hb.
  destruct (Net.xtoi _) as [[v i] ok].
  apply andb_true_iff in Hb as [Hh Hx].
  apply andb_true_iff in Hh as [H1 H2].
  apply andb_true_iff in Hx as [Hx Hok].
  apply andb_true_iff in Hx as [Hv Hi].
  apply Z.eqb_eq in Hv, Hi. subst. auto.
Qed.

Lemma hw_bytes_false (a : Net.HardwareAddr) :
  Net.hw_bytes false a
  = match a with
    | [] => EmptyString
    | _ => String ":" (Net.hw_bytes true a)
    end.
Proof. destruct a; reflexivity. Qed.

Lemma hw_bytes_true (b : Z) (a : Net.HardwareAddr) :
  Net.hw_bytes true (b :: a)
  = String (Net.hexDigit (Z.shiftr b 4))
      (String (Net.hexDigit (Z.land b 0xF)) (Net.hw_bytes false a)).
Proof. reflexivity. Qed.

Lemma canonical_String (a : Net.HardwareAddr) :
  a <> [] -> Forall is_byte a -> canonical (Net.HardwareAddr_String a) = true.
Proof.
  unfold Net.HardwareAddr_String.
  induction a as [|b a IH]; intros Hne Hall; [congruence|].
  inversion Hall as [|? ? Hb Ha]; subst.
  destruct (pair_facts b Hb) as (H1 & H2 & _).
  rewrite hw_bytes_true, hw_bytes_false.
  cbn [canonical]. rewrite H1, H2. cbn [andb].
  destruct a as [|b' a']; [reflexivity|].
  specialize (IH ltac:(discriminate) Ha).
  cbn [Ascii.eqb Bool.eqb andb].
  rewrite hw_bytes_true in *. exact IH.
Qed.

Lemma xtoi2_pair (b : Z) (a : Net.HardwareAddr) :
  is_byte b ->
  Net.xtoi2 (Net.hw_bytes true (b :: a)) ":" = (b, true).
Proof.
  intros Hb. destruct (pair_facts b Hb) as (_ & _ & Hx).
  rewrite hw_bytes_true, hw_bytes_false. unfold Net.xtoi2.
  destruct a as [|b' a']; cbn [String.get GoStrings.take Ascii.eqb Bool.eqb negb];
    rewrite Hx; cbn; (rewrite Z.mod_small by (unfold is_byte in Hb; lia)); reflexivity.
Qed.

Lemma drop3_pair (b : Z) (a : Net.HardwareAddr) :
  GoStrings.drop 3 (Net.hw_bytes true (b :: a)) = Net.hw_bytes true a.
Proof.
  rewrite hw_bytes_true, hw_bytes_false. destruct a; reflexivity.
Qed.

Lemma parse_groups3_String (a : Net.HardwareAddr) :
  Forall is_byte a ->
  Net.parse_groups3 (List.length a) (Net.hw_bytes true a) ":" = Some a.
Proof.
  induction a as [|b a IH]; intros Hall; [reflexivity|].
  inversion Hall as [|? ? Hb Ha]; subst.
  cbn [List.length Net.parse_groups3].
  rewrite (xtoi2_pair b a Hb), drop3_pair, (IH Ha). reflexivity.
Qed.

Lemma hw_bytes_length (a : Net.HardwareAddr) :
  a <> [] -> Z.of_nat (String.length (Net.hw_bytes true a)) = 3 * Z.of_nat (List.length a) - 1.
Proof.
  induction a as [|b a IH]; intros Hne; [congruence|].
  rewrite hw_bytes_true, hw_bytes_false.
  destruct a as [|b' a']; [reflexivity|].
  specialize (IH ltac:(discriminate)).
  cbn [String.length List.length] in *. lia.
Qed.

(** Parsing the text of an address gives the address back: the text
    is a normal form. *)
Lemma ParseMAC_String (a : Net.HardwareAddr) :
  Forall is_byte a ->
  Net.valid_hw_len (Z.of_nat (List.length a)) = true ->
  Net.ParseMAC (Net.HardwareAddr_String a) = Some a.
Proof.
  intros Hall Hlen. unfold Net.HardwareAddr_String.
  assert (Hn : 6 <= Z.of_nat (List.length a)).
  { unfold Net.valid_hw_len in Hlen.
    repeat (apply orb_true_iff in Hlen as [Hlen|Hlen]); apply Z.eqb_eq in Hlen; lia. }
  assert (Hne : a <> []) by (intros ->; simpl in Hn; lia).
  pose proof (hw_bytes_length a Hne) as Hl.
  unfold Net.ParseMAC, GoStrings.len. rewrite Hl.
  replace (3 * Z.of_nat (List.length a) - 1 <? 14) with false
    by (symmetry; apply Z.ltb_ge; lia).
  replace (3 * Z.of_nat (List.length a) - 1 + 1) with (Z.of_nat (List.length a) * 3) by lia.
  rewrite Z.mod_mul, Z.div_mul by lia. rewrite Hlen. cbn [negb Z.eqb].
  rewrite Nat2Z.id.
  destruct a as [|b0 [|b1 [|b2 a']]]; try (simpl in Hn; lia).
  rewrite (hw_bytes_true b0), hw_bytes_false, (hw_bytes_true b1), hw_bytes_false,
          (hw_bytes_true b2).
  cbn [String.get Ascii.eqb Bool.eqb orb].
  rewrite <- (hw_bytes_true b2), <- (hw_bytes_false (b2 :: a')), <- (hw_bytes_true b1),
          <- (hw_bytes_false (b1 :: b2 :: a')), <- (hw_bytes_true b0).
  now apply parse_groups3_String.
Qed.

Lemma xtoi2_byte (s : string) (e : ascii) (b : Z) :
  Net.xtoi2 s e = (b, true) -> is_byte b.
Proof.
  unfold Net.xtoi2.
  destruct (String.get 2 s) as [c2|].
  - destruct (negb _); [discriminate|].
    destruct (Net.xtoi _) as [[n ei] ok]. intros [= <- _].
    apply Z.mod_pos_bound. lia.
  - destruct (Net.xtoi _) as [[n ei] ok]. intros [= <- _].
    apply Z.mod_pos_bound. lia.
Qed.

Lemma parse_groups3_bytes (n : nat) (s : string) (e : ascii) (a : Net.HardwareAddr) :
  Net.parse_groups3 n s e = Some a -> Forall is_byte a /\ List.length a = n.
Proof.
  revert s a. induction n as [|n IH]; intros s a; cbn [Net.parse_groups3].
  - intros [= <-]. split; [constructor|reflexivity].
  - destruct (Net.xtoi2 s e) as [b [|]] eqn:Hx; [|discriminate].
    destruct (Net.parse_groups3 n _ e) as [a'|] eqn:Hg; [|discriminate].
    intros [= <-]. destruct (IH _ _ Hg) as [Ha Hl].
    split; [constructor; eauto using xtoi2_byte | simpl; congruence].
Qed.

Lemma parse_groups5_bytes (n : nat) (s : string) (e : ascii) (a : Net.HardwareAddr) :
  Net.parse_groups5 n s e = Some a -> Forall is_byte a /\ List.length a = (2 * n)%nat.
Proof.
  revert s a. induction n as [|n IH]; intros s a; cbn [Net.parse_groups5].
  - intros [= <-]. split; [constructor|reflexivity].
  - destruct (Net.xtoi2 (GoStrings.take 2 s) zero) as [b1 [|]] eqn:Hx1; [|discriminate].
    destruct (Net.xtoi2 (GoStrings.drop 2 s) e) as [b2 [|]] eqn:Hx2; [|discriminate].
    destruct (Net.parse_groups5 n _ e) as [a'|] eqn:Hg; [|discriminate].
    intros [= <-]. destruct (IH _ _ Hg) as [Ha Hl].
    split; [|simpl; lia].
    constructor; [eauto using xtoi2_byte|].
    constructor; [eauto using xtoi2_byte | assumption].
Qed.

(** What [ParseMAC] returns is an address of 6, 8 or 20 bytes. *)
Lemma ParseMAC_bytes (s : string) (a : Net.HardwareAddr) :
  Net.ParseMAC s = Some a ->
  Forall is_byte a /\ Net.valid_hw_len (Z.of_nat (List.length a)) = true.
Proof.
  unfold Net.ParseMAC.
  destruct (GoStrings.len s <? 14); [discriminate|].
  destruct (String.get 2 s) as [s2|]; [|discriminate].
  destruct (String.get 4 s) as [s4|]; [|discriminate].
  destruct (_ || _).
  - destruct (negb _); [discriminate|].
    destruct (Net.valid_hw_len _) eqn:Hv; [|discriminate]. cbn [negb].
    intros Hg. destruct (parse_groups3_bytes _ _ _ _ Hg) as [Ha Hl].
    split; [assumption|]. rewrite Hl, Z2Nat.id; [assumption|].
    unfold Net.valid_hw_len in Hv.
    repeat (apply orb_true_iff in Hv as [Hv|Hv]); apply Z.eqb_eq in Hv; lia.
  - destruct (Ascii.eqb s4 "."); [|discriminate].
    destruct (negb _); [discriminate|].
    destruct (Net.valid_hw_len _) eqn:Hv; [|discriminate]. cbn [negb].
    intros Hg. destruct (parse_groups5_bytes _ _ _ _ Hg) as [Ha Hl].
    split; [assumption|]. rewrite Hl.
    set (n := 2 * (GoStrings.len s + 1) / 5) in *.
    assert (Hn : n = 6 \/ n = 8 \/ n = 20).
    { unfold Net.valid_hw_len in Hv.
      repeat (apply orb_true_iff in Hv as [Hv|Hv]); apply Z.eqb_eq in Hv; lia. }
    destruct Hn as [->|[->| ->]]; reflexivity.
Qed.

(** ** Reservations *)

Section Reservations.
Context `{GoLib}.

Lemma ReservationAdd_invalid_ip (c : Client) (hostname : string) (res : Reservation)
      (rt : RoundTripper) :
  Net.ParseIP (Resv_IPAddress res) = None ->
  ReservationAdd c hostname res rt = (Returned (Some ErrInvalidIP), []).
Proof. intros Hip. unfold ReservationAdd. now rewrite Hip. Qed.

Lemma ReservationAdd_invalid_mac (c : Client) (hostname : string) (res : Reservation)
      (rt : RoundTripper) (ip : Net.IP) :
  Net.ParseIP (Resv_IPAddress res) = Some ip ->
  Net.ParseMAC (Resv_HwAddress res) = None ->
  ReservationAdd c hostname res rt = (Returned (Some ErrInvalidMAC), []).
Proof. intros Hip Hmac. unfold ReservationAdd. now rewrite Hip, Hmac. Qed.

Lemma ReservationAdd_sends (c : Client) (hostname : string) (res : Reservation)
      (rt : RoundTripper) (ip : Net.IP) (hw : Net.HardwareAddr) :
  Net.ParseIP (Resv_IPAddress res) = Some ip ->
  Net.ParseMAC (Resv_HwAddress res) = Some hw ->
  snd (ReservationAdd c hostname res rt)
  = sends c hostname (add_request (set_HwAddress (Net.HardwareAddr_String hw) res)).
Proof.
  intros Hip Hmac. unfold ReservationAdd, sends. rewrite Hip, Hmac.
  fold (add_request (set_HwAddress (Net.HardwareAddr_String hw) res)).
  rewrite make_post. destruct (url_Parse_error _); [reflexivity|].
  unfold bind.
  destruct (do_sends c (post c hostname
                          (add_request (set_HwAddress (Net.HardwareAddr_String hw) res)))
              (Some unm_options) [] rt) as [[[r err] v] ->].
  destruct err; reflexivity.
Qed.

Lemma ReservationDel_invalid_ip (c : Client) (hostname ipAddress : string)
      (subnetID : Z) (rt : RoundTripper) :
  Net.ParseIP ipAddress = None ->
  ReservationDel c hostname ipAddress subnetID rt = (Returned (Some ErrInvalidIP), []).
Proof. intros Hip. unfold ReservationDel. now rewrite Hip. Qed.

Lemma ReservationDel_sends (c : Client) (hostname ipAddress : string)
      (subnetID : Z) (rt : RoundTripper) (ip : Net.IP) :
  Net.ParseIP ipAddress = Some ip ->
  snd (ReservationDel c hostname ipAddress subnetID rt)
  = sends c hostname (del_request ipAddress subnetID).
Proof.
  intros Hip. unfold ReservationDel, sends. rewrite Hip.
  fold (del_request ipAddress subnetID).
  rewrite make_post. destruct (url_Parse_error _); [reflexivity|].
  unfold bind.
  destruct (do_sends c (post c hostname (del_request ipAddress subnetID))
              (Some unm_any) JNull rt) as [[[r err] v] ->].
  destruct err; reflexivity.
Qed.

Lemma ReservationDel_runs (c : Client) (hostname ipAddress : string)
      (subnetID : Z) (rt : RoundTripper) (ip : Net.IP)
      (items : list json) (e0 : Response) (rest : list Response) :
  Net.ParseIP ipAddress = Some ip ->
  url_Parse_error (make_url hostname) = None ->
  rt (post c hostname (del_request ipAddress subnetID)) = inr (Document (JArray items)) ->
  envelopes items = (e0 :: rest, None) ->
  ReservationDel c hostname ipAddress subnetID rt
  = (Returned (if Result e0 =? 0 then None else Some (result_error e0)),
     [post c hostname (del_request ipAddress subnetID)]).
Proof.
  intros Hip Hurl Hrt Hitems. unfold ReservationDel. rewrite Hip.
  fold (del_request ipAddress subnetID). rewrite make_post, Hurl. unfold bind.
  destruct (Z.eqb_spec (Result e0) 0) as [Hz|Hnz].
  - destruct (Arguments e0) as [j|] eqn:Ha.
    + rewrite (do_decodes c _ rt items e0 rest Hrt Hitems _ _ j Hz Ha). reflexivity.
    + rewrite (do_empty_arguments c _ rt items e0 rest Hrt Hitems _ _ Hz Ha). reflexivity.
  - rewrite (do_nonzero c _ rt items e0 rest Hrt Hitems _ _ Hnz). reflexivity.
Qed.

(** C7. For a reservation with a valid IP address and a MAC address
    that [net.ParseMAC] accepts, the [hw-address] of the request
    [ReservationAdd] sends is the text of the parsed address: pairs of
    lowercase hexadecimal digits separated by colons, a normal form
    that parses to the same address again. "B8:27:EB:9C:AE:B7" and
    "b8:27:eb:9c:ae:b7" are both sent as "b8:27:eb:9c:ae:b7". For a MAC
    address that does not parse ("not-a-mac" is one) the call returns
    an error and sends nothing; the error is [ErrInvalidMAC] when the
    IP address, which is checked first, is valid. *)
Theorem mac_normalization (c : Client) (hostname : string) (res : Reservation)
        (rt : RoundTripper) :
  (forall (ip : Net.IP) (hw : Net.HardwareAddr),
      Net.ParseIP (Resv_IPAddress res) = Some ip ->
      Net.ParseMAC (Resv_HwAddress res) = Some hw ->
      let sent := set_HwAddress (Net.HardwareAddr_String hw) res in
      snd (ReservationAdd c hostname res rt) = sends c hostname (add_request sent)
      /\ Resv_HwAddress sent = Net.HardwareAddr_String hw
      /\ canonical (Net.HardwareAddr_String hw) = true
      /\ Net.ParseMAC (Net.HardwareAddr_String hw) = Some hw)
  /\ (Net.ParseMAC (Resv_HwAddress res) = None ->
      snd (ReservationAdd c hostname res rt) = []
      /\ (exists err, fst (ReservationAdd c hostname res rt) = Returned (Some err))
      /\ (Net.ParseIP (Resv_IPAddress res) <> None ->
          fst (ReservationAdd c hostname res rt) = Returned (Some ErrInvalidMAC)))
  /\ option_map Net.HardwareAddr_String (Net.ParseMAC "B8:27:EB:9C:AE:B7")
     = Some "b8:27:eb:9c:ae:b7"
  /\ option_map Net.HardwareAddr_String (Net.ParseMAC "b8:27:eb:9c:ae:b7")
     = Some "b8:27:eb:9c:ae:b7"
  /\ Net.ParseMAC "not-a-mac" = None.
Proof.
  split; [|split; [|repeat split]].
  - intros ip hw Hip Hmac sent.
    destruct (ParseMAC_bytes _ _ Hmac) as [Hbytes Hlen].
    split; [now apply (ReservationAdd_sends c hostname res rt ip)|].
    split; [reflexivity|].
    split.
    + apply canonical_String; [|assumption].
      intros ->. discriminate Hlen.
    + now apply ParseMAC_String.
  - intros Hmac. destruct (Net.ParseIP (Resv_IPAddress res)) as [ip|] eqn:Hip.
    + rewrite (ReservationAdd_invalid_mac c hostname res rt ip Hip Hmac).
      repeat split; eauto.
    + rewrite (ReservationAdd_invalid_ip c hostname res rt Hip).
      repeat split; eauto. intros Hne. now contradiction Hne.
Qed.

(** C8. [ReservationAdd] and [ReservationDel] reject an IP address
    that [net.ParseIP] does not accept with [ErrInvalidIP], a value
    apart from [ErrInvalidMAC] and from every transport and protocol
    error, and send nothing; "999.1.1.1" and the empty string are
    rejected, "192.168.1.5" is accepted. [ReservationDel] takes no MAC
    address: with an IP address that parses it sends its request, the
    [reservation-del] of that address and subnet. *)
Theorem ip_validation (c : Client) (hostname : string) (rt : RoundTripper) :
  (forall res : Reservation,
      Net.ParseIP (Resv_IPAddress res) = None ->
      ReservationAdd c hostname res rt = (Returned (Some ErrInvalidIP), []))
  /\ (forall (ipAddress : string) (subnetID : Z),
         Net.ParseIP ipAddress = None ->
         ReservationDel c hostname ipAddress subnetID rt
         = (Returned (Some ErrInvalidIP), []))
  /\ (forall (ipAddress : string) (subnetID : Z) (ip : Net.IP),
         Net.ParseIP ipAddress = Some ip ->
         snd (ReservationDel c hostname ipAddress subnetID rt)
         = sends c hostname (del_request ipAddress subnetID))
  /\ Net.ParseIP "999.1.1.1" = None
  /\ Net.ParseIP "" = None
  /\ Net.ParseIP "192.168.1.5" = Some (Net.v4InV6Prefix ++ [192; 168; 1; 5])%list
  /\ ErrInvalidIP <> ErrInvalidMAC
  /\ (forall text, ErrInvalidIP <> Errorf text /\ ErrInvalidIP <> LibError text).
Proof.
  split; [intros; now apply ReservationAdd_invalid_ip|].
  split; [intros; now apply ReservationDel_invalid_ip|].
  split; [intros; now apply (ReservationDel_sends c hostname _ _ rt ip)|].
  repeat split; try reflexivity; discriminate.
Qed.

End Reservations.

Lemma mac_normalization_witness :
  snd (@ReservationAdd Example.lib Example.kea_client "kea-primary.example.com"
         Example.switch Example.unreachable)
  = [post Example.kea_client "kea-primary.example.com"
       (add_request (set_HwAddress "b8:27:eb:9c:ae:b7" Example.switch))].
Proof.
  destruct (@mac_normalization Example.lib Example.kea_client "kea-primary.example.com"
              Example.switch Example.unreachable) as (Hsent & _).
  destruct (Hsent (Net.v4InV6Prefix ++ [192; 168; 1; 5])%list
                  [184; 39; 235; 156; 174; 183] eq_refl eq_refl) as (Hs & _).
  exact Hs.
Defined.

Lemma ip_validation_witness :
  @ReservationDel Example.lib Example.kea_client "kea-primary.example.com"
     "999.1.1.1" 1921681000 Example.unreachable
  = (Returned (Some ErrInvalidIP), [])
  /\ @ReservationAdd Example.lib Example.kea_client "kea-primary.example.com"
       (set_HwAddress "" (mkReservation "" "" "" "" "" "" "" "" "" [] 0 ∅))
       Example.unreachable
     = (Returned (Some ErrInvalidIP), []).
Proof.
  destruct (@ip_validation Example.lib Example.kea_client "kea-primary.example.com"
              Example.unreachable) as (Hadd & Hdel & _).
  split.
  - apply Hdel. reflexivity.
  - apply Hadd. reflexivity.
Defined.

(** ** Deleting a reservation *)

Section DeleteReservation.
Context `{GoLib}.

Lemma reservation_Delete_runs (c : Client) (config : reservationResourceSchema)
      (rt : RoundTripper) (err : option error) (sent : list HttpRequest) :
  delete_fields_present config = true ->
  ReservationDel c (ValueString (R_Hostname config)) (ValueString (R_IPAddress config))
                 (ValueInt64 (R_SubnetID config)) rt
  = (Returned err, sent) ->
  reservation_Delete c config rt
  = (Returned (mkResourceResponse
                 (match err with Some e => [delete_failed e] | None => [] end) None),
     sent).
Proof.
  unfold delete_fields_present. intros Hf Hdel.
  apply andb_true_iff in Hf as [Hf Hip]. apply andb_true_iff in Hf as [Hf Hrh].
  apply andb_true_iff in Hf as [Hsid Hh].
  apply negb_true_iff in Hsid, Hh, Hrh, Hip.
  unfold reservation_Delete. rewrite Hsid, Hh, Hrh, Hip. cbn [HasError existsb].
  unfold bind. rewrite Hdel.
  destruct err as [e|]; cbn; now rewrite app_nil_r.
Qed.

(** C5, as the code has it. When the reservation to delete does not
    exist and the server answers result 3, [ReservationDel] returns
    the error "result:3(<text>)" and [reservationResource.Delete]
    reports it as the error diagnostic "ReservationDel", whether or not
    the text says "not found": the delete path escalates the answer.
    Only an answer with result 0 ends the delete without a
    diagnostic. *)
Theorem reservation_delete_not_found
        (c : Client) (config : reservationResourceSchema) (rt : RoundTripper)
        (ip : Net.IP) (items : list json) (e0 : Response) (rest : list Response) :
  let hostname := ValueString (R_Hostname config) in
  let ipAddress := ValueString (R_IPAddress config) in
  let subnetID := ValueInt64 (R_SubnetID config) in
  let req := post c hostname (del_request ipAddress subnetID) in
  delete_fields_present config = true ->
  Net.ParseIP ipAddress = Some ip ->
  url_Parse_error (make_url hostname) = None ->
  rt req = inr (Document (JArray items)) ->
  envelopes items = (e0 :: rest, None) ->
  (Result e0 = 3 ->
   ReservationDel c hostname ipAddress subnetID rt
   = (Returned (Some (result_error e0)), [req])
   /\ reservation_Delete c config rt
      = (Returned (mkResourceResponse [delete_failed (result_error e0)] None), [req])
   /\ HasError [delete_failed (result_error e0)] = true)
  /\ (Result e0 = 0 ->
      reservation_Delete c config rt = (Returned (mkResourceResponse [] None), [req])).
Proof.
  intros hostname ipAddress subnetID req Hf Hip Hurl Hrt Hitems.
  pose proof (ReservationDel_runs c hostname ipAddress subnetID rt ip items e0 rest
                Hip Hurl Hrt Hitems) as Hdel.
  split; intros Hres; rewrite Hres in Hdel; cbn [Z.eqb Pos.eqb] in Hdel.
  - split; [exact Hdel|]. split; [|reflexivity].
    now rewrite (reservation_Delete_runs c config rt _ _ Hf Hdel).
  - now rewrite (reservation_Delete_runs c config rt _ _ Hf Hdel).
Qed.

End DeleteReservation.

Lemma reservation_delete_not_found_witness :
  @reservation_Delete Example.lib Example.kea_client Example.gone Example.no_host
  = (Returned (mkResourceResponse
       [mkDiagnostic SeverityError "ReservationDel"
          "Unable to delete reservation, got error: result:3(Host not deleted (not found).)"]
       None),
     [post Example.kea_client "kea-primary.example.com"
        (del_request "192.168.1.5" 1921681000)]).
Proof.
  destruct (@reservation_delete_not_found Example.lib Example.kea_client Example.gone
              Example.no_host (Net.v4InV6Prefix ++ [192; 168; 1; 5])%list
              Example.no_host_items
              (mkResponse 3 "Host not deleted (not found)." None) []
              eq_refl eq_refl eq_refl eq_refl eq_refl) as [Hnf _].
  destruct (Hnf eq_refl) as (_ & Hdel & _).
  exact Hdel.
Defined.

(** C5 as the specification states it fails: deleting a reservation
    the server does not hold (result 3, "not found") ends with an
    error diagnostic. *)
Lemma reservation_delete_escalates :
  let resp := @reservation_Delete Example.lib Example.kea_client Example.gone
                Example.no_host in
  exists r, fst resp = Returned r /\ HasError (Diags r) = true
            /\ GoStrings.Contains "Host not deleted (not found)." "not found" = true.
Proof.
  eexists. split; [vm_compute; reflexivity|]. split; reflexivity.
Qed.

(** ** The request URL *)

Lemma drop_app (s t : string) : GoStrings.drop (String.length s) (s ++ t) = t.
Proof. induction s as [|c s IH]; [reflexivity|]. rewrite string_app_cons. exact IH. Qed.

Lemma drop_app_l (n : nat) (s t : string) :
  GoStrings.drop (String.length s + n) (s ++ t) = GoStrings.drop n t.
Proof.
  induction s as [|c s IH]; [reflexivity|]. rewrite string_app_cons. exact IH.
Qed.

Lemma HasSuffix_app (s suffix : string) : GoStrings.HasSuffix (s ++ suffix) suffix = true.
Proof.
  unfold GoStrings.HasSuffix. rewrite string_length_app. apply andb_true_iff. split.
  - apply Nat.leb_le. lia.
  - replace (String.length s + String.length suffix - String.length suffix)%nat
      with (String.length s) by lia.
    rewrite drop_app. apply String.eqb_refl.
Qed.

Lemma HasSuffix_app_l (s t suffix : string) :
  (String.length suffix <= String.length t)%nat ->
  GoStrings.HasSuffix (s ++ t) suffix = GoStrings.HasSuffix t suffix.
Proof.
  intros Hl. unfold GoStrings.HasSuffix. rewrite string_length_app.
  replace (String.length s + String.length t - String.length suffix)%nat
    with (String.length s + (String.length t - String.length suffix))%nat by lia.
  rewrite drop_app_l.
  replace (String.length suffix <=? String.length s + String.length t)%nat with true
    by (symmetry; apply Nat.leb_le; lia).
  replace (String.length suffix <=? String.length t)%nat with true
    by (symmetry; apply Nat.leb_le; lia).
  reflexivity.
Qed.

Lemma HasPrefix_https (url : string) : GoStrings.HasPrefix ("https://" ++ url) "https://" = true.
Proof. reflexivity. Qed.

Lemma make_url_https (url : string) :
  GoStrings.HasPrefix (make_url url) "https://" = true
  /\ GoStrings.HasSuffix (make_url url) "/" = true.
Proof.
  unfold make_url.
  destruct (GoStrings.HasPrefix url "https://") eqn:Hp; cbn [negb].
  - destruct (GoStrings.HasSuffix url "/") eqn:Hs; cbn [negb].
    + auto.
    + split; [now apply HasPrefix_app | apply HasSuffix_app].
  - destruct (GoStrings.HasSuffix ("https://" ++ url) "/") eqn:Hs; cbn [negb].
    + split; [apply HasPrefix_https | assumption].
    + split; [apply HasPrefix_app, HasPrefix_https | apply HasSuffix_app].
Qed.

Lemma make_url_bare (hostname : string) :
  hostname <> "" ->
  GoStrings.HasPrefix hostname "https://" = false ->
  GoStrings.HasSuffix hostname "/" = false ->
  make_url hostname = "https://" ++ hostname ++ "/".
Proof.
  intros Hne Hp Hs. unfold make_url. rewrite Hp. cbn [negb].
  rewrite HasSuffix_app_l, Hs by (destruct hostname; [congruence | simpl; lia]).
  cbn [negb]. generalize "https://". intros p.
  induction p as [|c p IH]; [reflexivity|]. rewrite !string_app_cons. now rewrite IH.
Qed.

Lemma make_url_fixed (url : string) :
  GoStrings.HasPrefix url "https://" = true ->
  GoStrings.HasSuffix url "/" = true ->
  make_url url = url.
Proof. intros Hp Hs. unfold make_url. rewrite Hp. cbn [negb]. now rewrite Hs. Qed.

Section RequestURL.
Context `{GoLib}.

Lemma make_request (c : Client) (method hostname : string) (body : option Request)
      (q : option (list (string * string))) (req : HttpRequest) :
  make c method hostname body q = inr req ->
  Method req = method /\ URL req = make_url hostname
  /\ BasicAuth req = client_auth c
  /\ Header req = [("Content-Type", "application/json"); ("Accept", "application/json")].
Proof.
  unfold make. destruct (url_Parse_error _); [discriminate|].
  intros [= <-]. cbn. destruct (client_auth c). auto.
Qed.

(** C9. The URL of a request is the host name with "https://" put in
    front unless it is there and "/" put behind unless one is there:
    it always starts with "https://" and ends in "/", it is
    "https://<hostname>/" for a bare host name, and a URL already of
    that form is kept. Every request [make] builds carries this URL,
    and every request of every operation of the client is a POST to
    it. *)
Theorem request_url (c : Client) (hostname : string) :
  GoStrings.HasPrefix (make_url hostname) "https://" = true
  /\ GoStrings.HasSuffix (make_url hostname) "/" = true
  /\ (hostname <> "" ->
      GoStrings.HasPrefix hostname "https://" = false ->
      GoStrings.HasSuffix hostname "/" = false ->
      make_url hostname = "https://" ++ hostname ++ "/")
  /\ make_url (make_url hostname) = make_url hostname
  /\ (forall method body q req,
         make c method hostname body q = inr req ->
         Method req = method /\ URL req = make_url hostname)
  /\ (forall (call : Call) (rt : RoundTripper) (req : HttpRequest),
         In req (sent_by c hostname call rt) ->
         Method req = "POST" /\ URL req = make_url hostname).
Proof.
  destruct (make_url_https hostname) as [Hp Hs].
  split; [exact Hp|]. split; [exact Hs|].
  split; [apply make_url_bare|].
  split; [now apply make_url_fixed|].
  split.
  { intros method body q req Hmake.
    destruct (make_request c method hostname body q req Hmake) as (? & ? & _). auto. }
  intros call rt req. apply commands_post.
Qed.

End RequestURL.

Lemma request_url_witness :
  make_url "kea-primary.example.com" = "https://kea-primary.example.com/".
Proof.
  destruct (@request_url Example.lib Example.kea_client "kea-primary.example.com")
    as (_ & _ & Hbare & _).
  apply Hbare; [discriminate | reflexivity | reflexivity].
Defined.

(** ** Client construction *)

Section Construction.
Context `{GoLib}.

Lemma processOptions_auth (getenv : Env) (opts : list Option) :
  match processOptions getenv opts with
  | Started c => client_auth c = resolved_auth getenv opts
                 /\ both_given (resolved_auth getenv opts) = true
  | Fatal _ =>
      both_given (resolved_auth getenv opts) = false
      \/ exists p text, o_proxyURL (apply_options opts) = Some p
                        /\ url_Parse_error p = Some text
  end.
Proof.
  unfold processOptions, resolved_auth, both_given.
  set (o := apply_options opts).
  change envKEAUSER with "KEA_USERNAME". change envKEAPASS with "KEA_PASSWORD".
  assert (Ha : match o_auth o with
               | Some a => mkAuth (username a) (password a)
               | None => mkAuth (getenv "KEA_USERNAME") (getenv "KEA_PASSWORD")
               end
               = match o_auth o with
                 | Some a => a
                 | None => mkAuth (getenv "KEA_USERNAME") (getenv "KEA_PASSWORD")
                 end).
  { destruct (o_auth o) as [[u p]|]; reflexivity. }
  cbv zeta. rewrite Ha.
  set (a := match o_auth o with Some a => a | None => _ end).
  destruct (o_proxyURL o) as [p|].
  - destruct (url_Parse_error p) as [text|] eqn:Hp.
    + right. eauto.
    + destruct (String.eqb (username a) ""), (String.eqb (password a) ""); cbn; auto.
  - destruct (String.eqb (username a) ""), (String.eqb (password a) ""); cbn; auto.
Qed.

Lemma apply_options_snoc (opts : list Option) (opt : Option) :
  apply_options (opts ++ [opt]) = opt (apply_options opts).
Proof. unfold apply_options. now rewrite fold_left_app. Qed.

(** C10. [New] resolves the Basic-auth credentials from the explicit
    ones when [WithAuth] set them (the last one given, whatever the
    other options), and from the variables KEA_USERNAME and
    KEA_PASSWORD when no option set any. It yields a client only when
    both the resolved user name and the resolved password are not
    empty, and then the client holds exactly these; whenever one of
    them is empty the process ends with a fatal log entry and no client
    exists. *)
Theorem client_credentials (getenv : Env) (opts : list Option) :
  (forall c : Client,
      New getenv opts = Started c ->
      client_auth c = resolved_auth getenv opts
      /\ username (client_auth c) <> "" /\ password (client_auth c) <> "")
  /\ (username (resolved_auth getenv opts) = ""
      \/ password (resolved_auth getenv opts) = "" ->
      exists logged, New getenv opts = Fatal logged)
  /\ (forall user pass : string,
         resolved_auth getenv (opts ++ [WithAuth user pass]) = mkAuth user pass)
  /\ (o_auth (apply_options opts) = None ->
      resolved_auth getenv opts = mkAuth (getenv envKEAUSER) (getenv envKEAPASS))
  /\ o_auth (apply_options []) = None
  /\ (forall (o : options) (t : Z) (l : Level) (p r : string),
         o_auth (SetHTTPTimeout t o) = o_auth o
         /\ o_auth (WithLogLevel l o) = o_auth o
         /\ o_auth (WithProxy p o) = o_auth o
         /\ o_auth (WithRemote r o) = o_auth o).
Proof.
  pose proof (processOptions_auth getenv opts) as Hp. unfold New.
  split.
  { intros c Hc. rewrite Hc in Hp. destruct Hp as [Ha Hb]. rewrite Ha.
    unfold both_given in Hb. apply andb_true_iff in Hb as [Hu Hpw].
    apply negb_true_iff in Hu, Hpw. apply String.eqb_neq in Hu, Hpw. auto. }
  split.
  { intros Hempty. destruct (processOptions getenv opts) as [c|logged]; [|eauto].
    destruct Hp as [_ Hb]. unfold both_given in Hb.
    apply andb_true_iff in Hb as [Hu Hpw].
    apply negb_true_iff in Hu, Hpw. apply String.eqb_neq in Hu, Hpw.
    destruct Hempty; contradiction. }
  split.
  { intros user pass. unfold resolved_auth. now rewrite apply_options_snoc. }
  split.
  { intros Hnone. unfold resolved_auth. now rewrite Hnone. }
  split; [reflexivity|].
  intros o t l p r. repeat split.
Qed.

End Construction.

Lemma client_credentials_witness :
  (exists logged, @New Example.lib Example.kea_env [WithAuth "admin" ""] = Fatal logged)
  /\ exists c, @New Example.lib Example.kea_env [SetHTTPTimeout 30] = Started c
               /\ client_auth c = mkAuth "kea-user" "kea-pass".
Proof.
  split.
  - destruct (@client_credentials Example.lib Example.kea_env [WithAuth "admin" ""])
      as (_ & Hfatal & _).
    apply Hfatal. right. reflexivity.
  - destruct (@client_credentials Example.lib Example.kea_env [SetHTTPTimeout 30])
      as (Hstarted & _).
    eexists. split; [reflexivity|].
    apply (Hstarted _ eq_refl).
Defined.
